(** * CAN-FIX node specific messages

    A shallow embedding of [canfix/messages/nodespecific.py]: the generic
    [NodeSpecific] envelope and the three variant classes
    [NodeIdentification], [BitRateSet] and [NodeIDSet], followed by the
    properties of their decode ([setMessage]), encode ([getData],
    [getMessage]), field setters and [__str__] methods.

    Python objects are records of optional attributes ([None] = the attribute
    has not been assigned yet, reading it raises [AttributeError]); methods
    that assign attributes are computations in a state-and-exception monad
    in which the assignments made before a [raise] survive it, as they do in
    Python; methods that only read are functions into [result]. *)

From Stdlib Require Import ZArith List String Ascii Bool Lia.
From Stdlib Require DecimalString HexadecimalString.
Import ListNotations.
Local Open Scope Z_scope.

(** ** Python values, exceptions and the object monad *)

(** The exception classes the module can raise: the two it raises itself
    ([MsgSizeError], [ValueError]), [assert], and the ones the interpreter
    raises on subscripts, missing attributes, [None] operands and unbound
    locals. *)
Inductive exn : Type :=
| IndexError
| AssertionError
| MsgSizeError
| ValueError
| TypeError
| AttributeError
| UnboundLocalError.

Inductive result (A : Type) : Type :=
| Ok (a : A)
| Raise (e : exn).
Arguments Ok {A} a.
Arguments Raise {A} e.

Definition rbind {A B : Type} (r : result A) (k : A -> result B) : result B :=
  match r with
  | Ok a => k a
  | Raise e => Raise e
  end.

(** A method body run on the object [self : S]: it returns the object as the
    assignments left it, and a value or the exception raised. *)
Definition M (S A : Type) : Type := S -> S * result A.

Definition ret {S A : Type} (a : A) : M S A := fun s => (s, Ok a).

Definition bind {S A B : Type} (c : M S A) (k : A -> M S B) : M S B :=
  fun s =>
    match c s with
    | (s', Ok a) => k a s'
    | (s', Raise e) => (s', Raise e)
    end.

Definition raise {S A : Type} (e : exn) : M S A := fun s => (s, Raise e).

Definition lift {S A : Type} (r : result A) : M S A := fun s => (s, r).

(** [self.x = v], with [upd] the record update of attribute [x]. *)
Definition assign {S : Type} (upd : S -> S) : M S unit := fun s => (upd s, Ok tt).

(** [assert b] *)
Definition py_assert {S : Type} (b : bool) : M S unit :=
  if b then ret tt else raise AssertionError.

Declare Scope py_scope.
Delimit Scope py_scope with py.
Notation "x <- c ;; k" := (bind c (fun x => k))
  (at level 61, c at next level, right associativity) : py_scope.
Notation "c ;; k" := (bind c (fun _ => k))
  (at level 61, right associativity) : py_scope.

Declare Scope res_scope.
Delimit Scope res_scope with res.
Notation "x <- c ;; k" := (rbind c (fun x => k))
  (at level 61, c at next level, right associativity) : res_scope.

(** The values [sendNode] and [destNode] hold: the constructors assign
    [None], decoding assigns an [int]. *)
Inductive pyval : Type :=
| PyNone
| PyInt (z : Z).

(** Reading an attribute of [self]. *)
Definition attr {A : Type} (o : option A) : result A :=
  match o with
  | Some v => Ok v
  | None => Raise AttributeError
  end.

(** [l[i]] on a list or bytearray: negative indices count from the end. *)
Definition py_index {A : Type} (l : list A) (i : Z) : result A :=
  let n := Z.of_nat (List.length l) in
  let j := if i <? 0 then i + n else i in
  if (j <? 0) || (n <=? j) then Raise IndexError
  else match nth_error l (Z.to_nat j) with
       | Some a => Ok a
       | None => Raise IndexError
       end.

(** [v + k] for an int [k]. *)
Definition py_add_int (v : pyval) (k : Z) : result Z :=
  match v with
  | PyInt z => Ok (z + k)
  | PyNone => Raise TypeError
  end.

(** [bytearray.append]: the item must be an int in [range(256)]. *)
Definition bytearray_append_int (b : list Z) (z : Z) : result (list Z) :=
  if (0 <=? z) && (z <? 256) then Ok (b ++ [z]) else Raise ValueError.

Definition bytearray_append (b : list Z) (v : pyval) : result (list Z) :=
  match v with
  | PyInt z => bytearray_append_int b z
  | PyNone => Raise TypeError
  end.

(** [bytearray.extend] with a list of ints; also the loop
    [for each in items: b.append(each)]. *)
Definition bytearray_extend (b : list Z) (items : list Z) : result (list Z) :=
  fold_left (fun acc each => (acc' <- acc ;; bytearray_append_int acc' each)%res)
            items (Ok b).

(** [str(n)] for an int. *)
Definition str_int (z : Z) : string :=
  DecimalString.NilZero.string_of_int (Z.to_int z).

(** [str(v)] *)
Definition py_str (v : pyval) : string :=
  match v with
  | PyNone => "None"
  | PyInt z => str_int z
  end.

(** ["{:02x}".format(z)]: lower-case hexadecimal, zero-padded to two
    characters, the sign counting as one. *)
Definition hex_digits (n : N) : string :=
  HexadecimalString.NilZero.string_of_uint (N.to_hex_uint n).

Definition format_02x (z : Z) : string :=
  if z <? 0 then String "-" (hex_digits (Z.to_N (- z)))
  else if z <? 16 then String "0" (hex_digits (Z.to_N z))
  else hex_digits (Z.to_N z).

(** ** The frame: [can.Message] *)

Module can.
Record Message : Type := mkMessage {
  arbitration_id : Z;
  extended_id : bool;
  data : list Z;      (* a bytearray *)
  dlc : Z
}.

(** What the bus delivers: every item of the payload is a byte, at most
    eight of them, and [dlc] is their count. *)
Definition wf (msg : Message) : bool :=
  forallb (fun b => (0 <=? b) && (b <? 256)) (data msg)
  && (dlc msg =? Z.of_nat (List.length (data msg)))
  && (dlc msg <=? 8).
End can.

(** [globals.py] is not part of the module: its two pairs of constants are
    taken as two enumerations. *)

(** Modelled from the spec: [MSG_REQUEST] and [MSG_RESPONSE] of globals.py,
    the two values of [msgType] ("msgType: enum{REQUEST,RESPONSE}"). *)
Inductive MsgType : Type :=
| MSG_REQUEST
| MSG_RESPONSE.

(** Modelled from the spec: [MSG_SUCCESS] and [MSG_FAIL] of globals.py, the
    two values of [status] ("status: enum{SUCCESS,FAIL}"). *)
Inductive Status : Type :=
| MSG_SUCCESS
| MSG_FAIL.

Definition MsgType_eqb (a b : MsgType) : bool :=
  match a, b with
  | MSG_REQUEST, MSG_REQUEST | MSG_RESPONSE, MSG_RESPONSE => true
  | _, _ => false
  end.

Definition Status_eqb (a b : Status) : bool :=
  match a, b with
  | MSG_SUCCESS, MSG_SUCCESS | MSG_FAIL, MSG_FAIL => true
  | _, _ => false
  end.

(** ** class NodeSpecific *)

Module NodeSpecific.

Record t : Type := mk {
  sendNode : option pyval;
  controlCode : option Z;
  data : option (list Z)
}.

(** The object [__init__] starts from: no attribute assigned. *)
Definition blank : t := mk None None None.

Definition set_sendNode (v : pyval) (s : t) : t :=
  mk (Some v) (controlCode s) (data s).
Definition set_controlCode (c : Z) (s : t) : t :=
  mk (sendNode s) (Some c) (data s).
Definition set_data (d : list Z) (s : t) : t :=
  mk (sendNode s) (controlCode s) (Some d).

Definition codes : list string :=
  ["Node Identification"; "Bit Rate Set"; "Node ID Set"; "Disable Parameter";
   "Enable Parameter"; "Node Report"; "Node Status"; "Update Firmware";
   "Connection Request"; "Node Configuration Set"; "Node Configuration Query";
   "Node Description"; "Parameter Set 0"; "Parameter Set 32"; "Parameter Set 64";
   "Parameter Set 96"; "Parameter Set 128"; "Parameter Set 160"; "Parameter Set 192";
   "Parameter Set 224"]%string.

(** Lines 40-45; [log.debug] leaves the object alone and is left out. *)
Definition setMessage (msg : can.Message) : M t unit :=
  (assign (set_sendNode (PyInt (can.arbitration_id msg - 1792))) ;;
   c <- lift (py_index (can.data msg) 0) ;;
   assign (set_controlCode c) ;;
   assign (set_data (skipn 1 (can.data msg))))%py.

Definition __init__ (msg : option can.Message) : M t unit :=
  match msg with
  | Some m => setMessage m
  | None => (assign (set_controlCode 0) ;; assign (set_data []))%py
  end.

(** [NodeSpecific(msg)]: the object exists only if [__init__] returns. *)
Definition decode (msg : can.Message) : result t :=
  match __init__ (Some msg) blank with
  | (s, Ok _) => Ok s
  | (_, Raise e) => Raise e
  end.

(** Lines 47-54. *)
Definition getMessage (self : t) : result can.Message :=
  (sn <- attr (sendNode self) ;;
   a <- py_add_int sn 1792 ;;
   c <- attr (controlCode self) ;;
   d0 <- bytearray_append_int [] c ;;
   rest <- attr (data self) ;;
   d <- bytearray_extend d0 rest ;;
   Ok (can.mkMessage a false d (Z.of_nat (List.length d))))%res.

(** Lines 65-72 of [__str__]: the text appended for the control code.
    Only [IndexError] is caught. *)
Definition describe (code : Z) : result string :=
  match py_index codes code with
  | Ok name => Ok name
  | Raise IndexError =>
      Ok ((if (code <? 128)%Z then "Reserved NSM " else "User Defined NSM ")
            ++ str_int code)%string
  | Raise e => Raise e
  end.

(** Lines 63-76. *)
Definition __str__ (self : t) : result string :=
  (sn <- attr (sendNode self) ;;
   c <- attr (controlCode self) ;;
   name <- describe c ;;
   d <- attr (data self) ;;
   Ok (fold_left (fun s each => (s ++ " 0x" ++ format_02x each)%string) d
                 ("[" ++ py_str sn ++ "] " ++ name)%string))%res.

End NodeSpecific.

(** ** class NodeIdentification(NodeSpecific) *)

Module NodeIdentification.

Record t : Type := mk {
  sendNode : option pyval;
  controlCode : option Z;
  destNode : option pyval;
  msgType : option MsgType;
  device : option Z;     (* self.__device *)
  fwrev : option Z;      (* self.__fwrev *)
  model : option Z       (* self.__model *)
}.

Definition blank : t := mk None None None None None None None.

Definition set_sendNode (v : pyval) (s : t) : t :=
  mk (Some v) (controlCode s) (destNode s) (msgType s) (device s) (fwrev s) (model s).
Definition set_controlCode (c : Z) (s : t) : t :=
  mk (sendNode s) (Some c) (destNode s) (msgType s) (device s) (fwrev s) (model s).
Definition set_destNode (v : pyval) (s : t) : t :=
  mk (sendNode s) (controlCode s) (Some v) (msgType s) (device s) (fwrev s) (model s).
Definition set_msgType (m : MsgType) (s : t) : t :=
  mk (sendNode s) (controlCode s) (destNode s) (Some m) (device s) (fwrev s) (model s).
Definition set_device (d : Z) (s : t) : t :=
  mk (sendNode s) (controlCode s) (destNode s) (msgType s) (Some d) (fwrev s) (model s).
Definition set_fwrev (f : Z) (s : t) : t :=
  mk (sendNode s) (controlCode s) (destNode s) (msgType s) (device s) (Some f) (model s).
Definition set_model (m : Z) (s : t) : t :=
  mk (sendNode s) (controlCode s) (destNode s) (msgType s) (device s) (fwrev s) (Some m).

(** Lines 130-135. *)
Definition setDevice (device : Z) : M t unit :=
  if (device >? 255) || (device <? 0) then raise ValueError
  else (assign (set_device device) ;; assign (set_msgType MSG_RESPONSE))%py.

(** Lines 142-147. *)
Definition setFwrev (fwrev : Z) : M t unit :=
  if (fwrev >? 255) || (fwrev <? 0) then raise ValueError
  else (assign (set_fwrev fwrev) ;; assign (set_msgType MSG_RESPONSE))%py.

(** Lines 155-160. *)
Definition setModel (model : Z) : M t unit :=
  if (model <? 0) || (model >? 0xFFFFFF) then raise ValueError
  else (assign (set_model model) ;; assign (set_msgType MSG_RESPONSE))%py.

(** Lines 92-106. The assignments to [self.device], [self.fwrev] and
    [self.model] go through the property setters. *)
Definition setMessage (msg : can.Message) : M t unit :=
  (assign (set_sendNode (PyInt (can.arbitration_id msg - 1792))) ;;
   c <- lift (py_index (can.data msg) 0) ;;
   assign (set_controlCode c) ;;
   py_assert (c =? 0x00) ;;
   d <- lift (py_index (can.data msg) 1) ;;
   assign (set_destNode (PyInt d)) ;;
   if can.dlc msg =? 2 then
     assign (set_msgType MSG_REQUEST)
   else if can.dlc msg =? 8 then
     assign (set_msgType MSG_RESPONSE) ;;
     b3 <- lift (py_index (can.data msg) 3) ;;
     setDevice b3 ;;
     b4 <- lift (py_index (can.data msg) 4) ;;
     setFwrev b4 ;;
     b5 <- lift (py_index (can.data msg) 5) ;;
     b6 <- lift (py_index (can.data msg) 6) ;;
     b7 <- lift (py_index (can.data msg) 7) ;;
     setModel (b5 + Z.shiftl b6 8 + Z.shiftl b7 16)
   else
     raise MsgSizeError)%py.

Definition opt_set (setter : Z -> M t unit) (v : option Z) : M t unit :=
  match v with
  | Some z => setter z
  | None => ret tt
  end.

(** Lines 80-90. *)
Definition __init__ (msg : option can.Message) (device fwrev model : option Z)
  : M t unit :=
  match msg with
  | Some m => setMessage m
  | None =>
      (assign (set_controlCode 0x00) ;;
       assign (set_msgType MSG_REQUEST) ;;
       assign (set_sendNode PyNone) ;;
       assign (set_destNode PyNone) ;;
       opt_set setDevice device ;;
       opt_set setFwrev fwrev ;;
       opt_set setModel model)%py
  end.

(** [NodeIdentification(...)]: the object exists only if [__init__]
    returns. *)
Definition new (msg : option can.Message) (device fwrev model : option Z)
  : result t :=
  match __init__ msg device fwrev model blank with
  | (s, Ok _) => Ok s
  | (_, Raise e) => Raise e
  end.

(** [NodeIdentification(msg)] *)
Definition decode (msg : can.Message) : result t := new (Some msg) None None None.

(** Lines 116-126. *)
Definition getData (self : t) : result (list Z) :=
  (c <- attr (controlCode self) ;;
   d0 <- bytearray_append_int [] c ;;
   dn <- attr (destNode self) ;;
   d1 <- bytearray_append d0 dn ;;
   mt <- attr (msgType self) ;;
   if MsgType_eqb mt MSG_RESPONSE then
     d2 <- bytearray_append_int d1 0x01 ;;
     dev <- attr (device self) ;;
     d3 <- bytearray_append_int d2 dev ;;
     fw <- attr (fwrev self) ;;
     d4 <- bytearray_append_int d3 fw ;;
     m <- attr (model self) ;;
     bytearray_extend d4 [Z.land m 0x0000FF;
                          Z.shiftr (Z.land m 0x00FF00) 8;
                          Z.shiftr (Z.land m 0xFF0000) 16]
   else Ok d1)%res.

(** Lines 108-112. *)
Definition getMessage (self : t) : result can.Message :=
  (sn <- attr (sendNode self) ;;
   a <- py_add_int sn 1792 ;;
   d <- getData self ;;
   Ok (can.mkMessage a false d (Z.of_nat (List.length d))))%res.

(** Lines 167-174. *)
Definition __str__ (self : t) : result string :=
  (sn <- attr (sendNode self) ;;
   dn <- attr (destNode self) ;;
   c <- attr (controlCode self) ;;
   name <- py_index NodeSpecific.codes c ;;
   dev <- attr (device self) ;;
   fw <- attr (fwrev self) ;;
   m <- attr (model self) ;;
   Ok ("[" ++ py_str sn ++ "]" ++ "->[" ++ py_str dn ++ "] " ++ name
       ++ ": device=" ++ str_int dev
       ++ ", fwrev=" ++ str_int fw
       ++ ", model=" ++ str_int m)%string)%res.

End NodeIdentification.

(** ** class BitRateSet(NodeSpecific) *)

Module BitRateSet.

Record t : Type := mk {
  sendNode : option pyval;
  controlCode : option Z;
  destNode : option pyval;
  msgType : option MsgType;
  status : option Status;
  bitrate : option Z     (* self.__bitrate *)
}.

Definition blank : t := mk None None None None None None.

Definition set_sendNode (v : pyval) (s : t) : t :=
  mk (Some v) (controlCode s) (destNode s) (msgType s) (status s) (bitrate s).
Definition set_controlCode (c : Z) (s : t) : t :=
  mk (sendNode s) (Some c) (destNode s) (msgType s) (status s) (bitrate s).
Definition set_destNode (v : pyval) (s : t) : t :=
  mk (sendNode s) (controlCode s) (Some v) (msgType s) (status s) (bitrate s).
Definition set_msgType (m : MsgType) (s : t) : t :=
  mk (sendNode s) (controlCode s) (destNode s) (Some m) (status s) (bitrate s).
Definition set_status (st : Status) (s : t) : t :=
  mk (sendNode s) (controlCode s) (destNode s) (msgType s) (Some st) (bitrate s).
Definition set_bitrate (b : Z) (s : t) : t :=
  mk (sendNode s) (controlCode s) (destNode s) (msgType s) (status s) (Some b).

(** Line 229: the dict, in insertion order. *)
Definition bitrates : list (Z * Z) := [(125, 1); (250, 2); (500, 3); (1000, 4)].

(** [d[k]], [None] when [k not in d]. *)
Fixpoint dict_get (d : list (Z * Z)) (k : Z) : option Z :=
  match d with
  | [] => None
  | (k', v) :: rest => if k' =? k then Some v else dict_get rest k
  end.

(** Lines 231-238. *)
Definition setBitRate (bitrate : Z) : M t unit :=
  ((if (bitrate >=? 1) && (bitrate <=? 4) then
      assign (set_bitrate bitrate)
    else match dict_get bitrates bitrate with
         | Some code => assign (set_bitrate code)
         | None => raise ValueError
         end) ;;
   assign (set_msgType MSG_REQUEST))%py.

(** Lines 189-207. The assignment to [self.bitrate] goes through the
    property setter. *)
Definition setMessage (msg : can.Message) : M t unit :=
  (assign (set_sendNode (PyInt (can.arbitration_id msg - 1792))) ;;
   c <- lift (py_index (can.data msg) 0) ;;
   assign (set_controlCode c) ;;
   py_assert (c =? 0x01) ;;
   d <- lift (py_index (can.data msg) 1) ;;
   assign (set_destNode (PyInt d)) ;;
   if can.dlc msg =? 2 then
     assign (set_msgType MSG_RESPONSE) ;;
     assign (set_status MSG_SUCCESS)
   else if can.dlc msg =? 3 then
     b2 <- lift (py_index (can.data msg) 2) ;;
     if b2 =? 0xFF then
       assign (set_msgType MSG_RESPONSE) ;;
       assign (set_status MSG_FAIL)
     else
       assign (set_msgType MSG_REQUEST) ;;
       b2' <- lift (py_index (can.data msg) 2) ;;
       setBitRate b2'
   else
     raise MsgSizeError)%py.

(** Lines 178-187. *)
Definition __init__ (msg : option can.Message) (bitrate : option Z) : M t unit :=
  match msg with
  | Some m => setMessage m
  | None =>
      (assign (set_controlCode 0x01) ;;
       assign (set_msgType MSG_RESPONSE) ;;
       assign (set_status MSG_SUCCESS) ;;
       assign (set_sendNode PyNone) ;;
       assign (set_destNode PyNone) ;;
       match bitrate with
       | Some b => setBitRate b
       | None => ret tt
       end)%py
  end.

Definition new (msg : option can.Message) (bitrate : option Z) : result t :=
  match __init__ msg bitrate blank with
  | (s, Ok _) => Ok s
  | (_, Raise e) => Raise e
  end.

(** [BitRateSet(msg)] *)
Definition decode (msg : can.Message) : result t := new (Some msg) None.

(** Lines 217-225; [and] reads [self.status] only when the first test
    holds. *)
Definition getData (self : t) : result (list Z) :=
  (c <- attr (controlCode self) ;;
   d0 <- bytearray_append_int [] c ;;
   dn <- attr (destNode self) ;;
   d1 <- bytearray_append d0 dn ;;
   mt <- attr (msgType self) ;;
   failed <- (if MsgType_eqb mt MSG_RESPONSE then
                st <- attr (status self) ;; Ok (Status_eqb st MSG_FAIL)
              else Ok false) ;;
   if failed : bool then bytearray_append_int d1 0xFF
   else
     mt' <- attr (msgType self) ;;
     if MsgType_eqb mt' MSG_REQUEST then
       b <- attr (bitrate self) ;;
       bytearray_append_int d1 b
     else Ok d1)%res.

(** Lines 209-213. *)
Definition getMessage (self : t) : result can.Message :=
  (sn <- attr (sendNode self) ;;
   a <- py_add_int sn 1792 ;;
   d <- getData self ;;
   Ok (can.mkMessage a false d (Z.of_nat (List.length d))))%res.

(** Lines 250-253: the first key of the dict whose value is [self.bitrate];
    [b] stays unbound when there is none. *)
Fixpoint find_kbps (d : list (Z * Z)) (code : Z) : option Z :=
  match d with
  | [] => None
  | (each, v) :: rest => if v =? code then Some each else find_kbps rest code
  end.

(** Lines 245-260. *)
Definition __str__ (self : t) : result string :=
  (sn <- attr (sendNode self) ;;
   dn <- attr (destNode self) ;;
   c <- attr (controlCode self) ;;
   name <- py_index NodeSpecific.codes c ;;
   let s := ("[" ++ py_str sn ++ "]" ++ "->[" ++ py_str dn ++ "] " ++ name)%string in
   mt <- attr (msgType self) ;;
   if MsgType_eqb mt MSG_REQUEST then
     code <- attr (bitrate self) ;;
     match find_kbps bitrates code with
     | Some b => Ok (s ++ ": request bitrate=" ++ str_int b ++ "kbps")%string
     | None => Raise UnboundLocalError
     end
   else
     st <- attr (status self) ;;
     if Status_eqb st MSG_SUCCESS then Ok (s ++ ": Success Response")%string
     else if Status_eqb st MSG_FAIL then Ok (s ++ ": Failure Response")%string
     else Ok s)%res.

End BitRateSet.

(** ** class NodeIDSet(NodeSpecific) *)

Module NodeIDSet.

Record t : Type := mk {
  sendNode : option pyval;
  controlCode : option Z;
  destNode : option pyval;
  msgType : option MsgType;
  newnode : option Z     (* self.__newnode *)
}.

Definition blank : t := mk None None None None None.

Definition set_sendNode (v : pyval) (s : t) : t :=
  mk (Some v) (controlCode s) (destNode s) (msgType s) (newnode s).
Definition set_controlCode (c : Z) (s : t) : t :=
  mk (sendNode s) (Some c) (destNode s) (msgType s) (newnode s).
Definition set_destNode (v : pyval) (s : t) : t :=
  mk (sendNode s) (controlCode s) (Some v) (msgType s) (newnode s).
Definition set_msgType (m : MsgType) (s : t) : t :=
  mk (sendNode s) (controlCode s) (destNode s) (Some m) (newnode s).
Definition set_newnode (n : Z) (s : t) : t :=
  mk (sendNode s) (controlCode s) (destNode s) (msgType s) (Some n).

(** Lines 310-315. *)
Definition setNewNode (newnode : Z) : M t unit :=
  ((if (newnode >=? 1) && (newnode <=? 255) then
      assign (set_newnode newnode)
    else raise ValueError) ;;
   assign (set_msgType MSG_REQUEST))%py.

(** Lines 274-288. The assignment to [self.newnode] goes through the
    property setter. *)
Definition setMessage (msg : can.Message) : M t unit :=
  (assign (set_sendNode (PyInt (can.arbitration_id msg - 1792))) ;;
   c <- lift (py_index (can.data msg) 0) ;;
   assign (set_controlCode c) ;;
   py_assert (c =? 0x02) ;;
   d <- lift (py_index (can.data msg) 1) ;;
   assign (set_destNode (PyInt d)) ;;
   if can.dlc msg =? 3 then
     b2 <- lift (py_index (can.data msg) 2) ;;
     if b2 =? 0x00 then
       assign (set_msgType MSG_RESPONSE)
     else
       assign (set_msgType MSG_REQUEST) ;;
       b2' <- lift (py_index (can.data msg) 2) ;;
       setNewNode b2'
   else
     raise MsgSizeError)%py.

(** Lines 264-272. *)
Definition __init__ (msg : option can.Message) (newnode : option Z) : M t unit :=
  match msg with
  | Some m => setMessage m
  | None =>
      (assign (set_controlCode 0x02) ;;
       assign (set_msgType MSG_RESPONSE) ;;
       assign (set_sendNode PyNone) ;;
       assign (set_destNode PyNone) ;;
       match newnode with
       | Some n => setNewNode n
       | None => ret tt
       end)%py
  end.

Definition new (msg : option can.Message) (newnode : option Z) : result t :=
  match __init__ msg newnode blank with
  | (s, Ok _) => Ok s
  | (_, Raise e) => Raise e
  end.

(** [NodeIDSet(msg)] *)
Definition decode (msg : can.Message) : result t := new (Some msg) None.

(** Lines 298-306. *)
Definition getData (self : t) : result (list Z) :=
  (c <- attr (controlCode self) ;;
   d0 <- bytearray_append_int [] c ;;
   dn <- attr (destNode self) ;;
   d1 <- bytearray_append d0 dn ;;
   mt <- attr (msgType self) ;;
   if MsgType_eqb mt MSG_RESPONSE then bytearray_append_int d1 0x00
   else
     mt' <- attr (msgType self) ;;
     if MsgType_eqb mt' MSG_REQUEST then
       n <- attr (newnode self) ;;
       bytearray_append_int d1 n
     else Ok d1)%res.

(** Lines 290-294. *)
Definition getMessage (self : t) : result can.Message :=
  (sn <- attr (sendNode self) ;;
   a <- py_add_int sn 1792 ;;
   d <- getData self ;;
   Ok (can.mkMessage a false d (Z.of_nat (List.length d))))%res.

(** Lines 322-330. *)
Definition __str__ (self : t) : result string :=
  (sn <- attr (sendNode self) ;;
   dn <- attr (destNode self) ;;
   c <- attr (controlCode self) ;;
   name <- py_index NodeSpecific.codes c ;;
   let s := ("[" ++ py_str sn ++ "]" ++ "->[" ++ py_str dn ++ "] " ++ name)%string in
   mt <- attr (msgType self) ;;
   if MsgType_eqb mt MSG_REQUEST then
     n <- attr (newnode self) ;;
     Ok (s ++ ": request new node id=" ++ str_int n)%string
   else Ok (s ++ ": Success Response")%string)%res.

End NodeIDSet.

(** ** Entities as the spec's data model has them *)

Definition is_byte (z : Z) : bool := (0 <=? z) && (z <=? 255).

(** A node address held by [sendNode] or [destNode]: an int in 0..255. *)
Definition node_ok (v : option pyval) : bool :=
  match v with
  | Some (PyInt z) => is_byte z
  | _ => false
  end.

Definition in_range (lo hi : Z) (v : option Z) : bool :=
  match v with
  | Some z => (lo <=? z) && (z <=? hi)
  | None => false
  end.

Definition code_is (c : Z) (v : option Z) : bool :=
  match v with
  | Some z => z =? c
  | None => false
  end.

(** A fully populated Node Identification entity: both addresses, its own
    control code, a role, and for a response its three fields in their
    domains. *)
Definition NodeIdentification_valid (e : NodeIdentification.t) : bool :=
  node_ok (NodeIdentification.sendNode e)
  && node_ok (NodeIdentification.destNode e)
  && code_is 0 (NodeIdentification.controlCode e)
  && match NodeIdentification.msgType e with
     | Some MSG_REQUEST => true
     | Some MSG_RESPONSE =>
         in_range 0 255 (NodeIdentification.device e)
         && in_range 0 255 (NodeIdentification.fwrev e)
         && in_range 0 0xFFFFFF (NodeIdentification.model e)
     | None => false
     end.

(** A fully populated Bit Rate Set entity: a request has a bit rate code
    1..4, a response has a status. *)
Definition BitRateSet_valid (e : BitRateSet.t) : bool :=
  node_ok (BitRateSet.sendNode e)
  && node_ok (BitRateSet.destNode e)
  && code_is 1 (BitRateSet.controlCode e)
  && match BitRateSet.msgType e with
     | Some MSG_REQUEST => in_range 1 4 (BitRateSet.bitrate e)
     | Some MSG_RESPONSE =>
         match BitRateSet.status e with Some _ => true | None => false end
     | None => false
     end.

(** A fully populated Node ID Set entity: a request has a new node number
    1..255. *)
Definition NodeIDSet_valid (e : NodeIDSet.t) : bool :=
  node_ok (NodeIDSet.sendNode e)
  && node_ok (NodeIDSet.destNode e)
  && code_is 2 (NodeIDSet.controlCode e)
  && match NodeIDSet.msgType e with
     | Some MSG_REQUEST => in_range 1 255 (NodeIDSet.newnode e)
     | Some MSG_RESPONSE => true
     | None => false
     end.

(** The frames of the examples below. *)

(** The spec's scenario: address 1793, payload [0x00, 0x05]. *)
Definition frame_ident_request : can.Message := can.mkMessage 1793 false [0; 5] 2.

(** One payload byte, the control code alone. *)
Definition frame_short (code : Z) : can.Message := can.mkMessage 1793 false [code] 1.

(** A Bit Rate Set frame whose third byte is no bit rate code. *)
Definition frame_bitrate_5 : can.Message := can.mkMessage 1793 false [1; 5; 5] 3.

(** A frame of the parameter range, below the node specific addresses. *)
Definition frame_low_address : can.Message := can.mkMessage 256 false [0; 5] 2.

(** A frame with a node specific address and no payload. *)
Definition frame_empty : can.Message := can.mkMessage 1793 false [] 0.

(** The entities of the examples below. *)

(** A Node Identification response from node 1 to node 5. *)
Definition ident_response_example : NodeIdentification.t :=
  NodeIdentification.mk (Some (PyInt 1)) (Some 0) (Some (PyInt 5))
    (Some MSG_RESPONSE) (Some 7) (Some 3) (Some 0x123456).

(** The Node Identification request of the spec's scenario. *)
Definition ident_request_example : NodeIdentification.t :=
  NodeIdentification.mk (Some (PyInt 1)) (Some 0) (Some (PyInt 5))
    (Some MSG_REQUEST) None None None.

(** [BitRateSet(bitrate=500)] with both addresses assigned. *)
Definition bitrate_request_example : BitRateSet.t :=
  BitRateSet.mk (Some (PyInt 1)) (Some 1) (Some (PyInt 5))
    (Some MSG_REQUEST) (Some MSG_SUCCESS) (Some 3).

(** A generic envelope as decoding leaves it. *)
Definition envelope_example : NodeSpecific.t :=
  NodeSpecific.mk (Some (PyInt 3)) (Some 50) (Some [10; 255]).

(** Its frame. *)
Definition frame_envelope : can.Message := can.mkMessage 1795 true [50; 10; 255] 3.

(** [NodeSpecific.__str__] appends one item per payload byte. *)
Definition hex_items (payload : list Z) : string :=
  fold_right (fun each tail => (" 0x" ++ format_02x each ++ tail)%string)
             ""%string payload.

(** A constructor argument: left out, or given and within [lo..hi]. *)
Definition opt_in_range (lo hi : Z) (v : option Z) : bool :=
  match v with
  | Some z => (lo <=? z) && (z <=? hi)
  | None => true
  end.

Definition is_given (v : option Z) : bool :=
  match v with
  | Some _ => true
  | None => false
  end.

(** The code a bit rate argument stands for: a code 1..4 itself, or the code
    of a kbps value of the table. *)
Definition bitrate_code (v : Z) : option Z :=
  if (1 <=? v) && (v <=? 4) then Some v
  else BitRateSet.dict_get BitRateSet.bitrates v.

(** * Properties *)

(** ** Subscripts *)

Lemma py_index_nth_error {A : Type} (l : list A) (i : nat) (a : A) :
  nth_error l i = Some a -> py_index l (Z.of_nat i) = Ok a.
Proof.
  intros H. unfold py_index.
  assert (Hlt : (i < List.length l)%nat) by (apply nth_error_Some; congruence).
  destruct (Z.ltb_spec (Z.of_nat i) 0) as [Hneg | _]; [lia |].
  destruct (Z.ltb_spec (Z.of_nat i) 0) as [Hneg | _]; [lia |].
  destruct (Z.leb_spec (Z.of_nat (List.length l)) (Z.of_nat i)) as [Hge | _]; [lia |].
  simpl. rewrite Nat2Z.id, H. reflexivity.
Qed.

Lemma py_index_beyond {A : Type} (l : list A) (i : Z) :
  Z.of_nat (List.length l) <= i -> py_index l i = Raise IndexError.
Proof.
  intros H. unfold py_index.
  destruct (Z.ltb_spec i 0) as [Hneg | _]; [lia |].
  destruct (Z.ltb_spec i 0) as [Hneg | _]; [lia |].
  destruct (Z.leb_spec (Z.of_nat (List.length l)) i) as [_ | Hlt]; [| lia].
  reflexivity.
Qed.

Lemma py_index_0 {A : Type} (a : A) (l : list A) : py_index (a :: l) 0 = Ok a.
Proof. apply (py_index_nth_error (a :: l) 0). reflexivity. Qed.

Lemma py_index_1 {A : Type} (a b : A) (l : list A) : py_index (a :: b :: l) 1 = Ok b.
Proof. apply (py_index_nth_error (a :: b :: l) 1). reflexivity. Qed.

Lemma py_index_2 {A : Type} (a b c : A) (l : list A) :
  py_index (a :: b :: c :: l) 2 = Ok c.
Proof. apply (py_index_nth_error (a :: b :: c :: l) 2). reflexivity. Qed.

(** A subscript raises nothing but [IndexError]. *)
Lemma py_index_raises {A : Type} (l : list A) (i : Z) (e : exn) :
  py_index l i = Raise e -> e = IndexError.
Proof.
  unfold py_index.
  destruct ((_ <? 0) || _); [congruence |].
  destruct (nth_error _ _); congruence.
Qed.

Arguments py_index : simpl never.

(** Unfolding a method body down to the subscripts and tests it makes. *)
Ltac run_method :=
  unfold bind, lift, assign, raise, ret, py_assert, rbind, attr; simpl.

(** ** The generic envelope *)

Lemma envelope_decode_cons (a : Z) (x : bool) (b : Z) (rest : list Z) (n : Z) :
  NodeSpecific.decode (can.mkMessage a x (b :: rest) n) =
    Ok (NodeSpecific.mk (Some (PyInt (a - 1792))) (Some b) (Some rest)).
Proof.
  unfold NodeSpecific.decode, NodeSpecific.__init__, NodeSpecific.setMessage.
  run_method. reflexivity.
Qed.

(** C7, amended: the envelope decode has no address range check. For every
    frame with a non-empty payload, whatever its address, it succeeds with
    [sendNode] the address minus 1792, [controlCode] the first payload byte
    and [data] the bytes after it. *)
Theorem envelope_decode_nonempty (msg : can.Message) (b : Z) (rest : list Z) :
  can.data msg = b :: rest ->
  NodeSpecific.decode msg =
    Ok (NodeSpecific.mk (Some (PyInt (can.arbitration_id msg - 1792)))
                        (Some b) (Some rest)).
Proof.
  intros Hdata. destruct msg as [a x payload n]. simpl in Hdata. subst payload.
  apply envelope_decode_cons.
Qed.

Lemma envelope_decode_nonempty_witness :
  can.data frame_low_address = 0 :: [5]
  /\ NodeSpecific.decode frame_low_address =
       Ok (NodeSpecific.mk (Some (PyInt (-1536))) (Some 0) (Some [5])).
Proof.
  split; [reflexivity |].
  apply (envelope_decode_nonempty frame_low_address 0 [5]). reflexivity.
Defined.

(** C7 as stated fails: a frame whose address minus 1792 is outside 0..255
    decodes without any error, to a [sendNode] outside 0..255; and a frame
    whose address is in range but whose payload is empty does not decode. *)
Lemma envelope_decode_range_counterexample :
  (~ 0 <= can.arbitration_id frame_low_address - 1792 <= 255)
  /\ NodeSpecific.decode frame_low_address =
       Ok (NodeSpecific.mk (Some (PyInt (-1536))) (Some 0) (Some [5]))
  /\ 0 <= can.arbitration_id frame_empty - 1792 <= 255
  /\ NodeSpecific.decode frame_empty = Raise IndexError.
Proof.
  repeat split; try reflexivity; simpl; lia.
Qed.

Lemma bytearray_extend_bytes (items acc : list Z) :
  forallb (fun b => (0 <=? b) && (b <? 256)) items = true ->
  bytearray_extend acc items = Ok (acc ++ items).
Proof.
  revert acc. induction items as [| y items IH]; intros acc Hbytes.
  - rewrite app_nil_r. reflexivity.
  - simpl in Hbytes. apply andb_prop in Hbytes as [Hy Hbytes].
    unfold bytearray_extend in *. simpl. unfold bytearray_append_int at 2.
    rewrite Hy. rewrite IH by exact Hbytes. rewrite <- app_assoc. reflexivity.
Qed.

(** The envelope's encode gives back the frame that was decoded: address
    [sendNode + 1792], payload the control code followed by [data], [dlc]
    the payload length. *)
Lemma envelope_encode_decode (a : Z) (x : bool) (b : Z) (rest : list Z) (n : Z) :
  can.wf (can.mkMessage a x (b :: rest) n) = true ->
  exists e, NodeSpecific.decode (can.mkMessage a x (b :: rest) n) = Ok e
    /\ NodeSpecific.getMessage e = Ok (can.mkMessage a false (b :: rest) n).
Proof.
  intros Hwf.
  eexists. split; [apply envelope_decode_cons |].
  unfold can.wf in Hwf.
  apply andb_prop in Hwf as [Hwf Hmax]. apply andb_prop in Hwf as [Hbytes Hdlc].
  simpl in Hbytes. apply andb_prop in Hbytes as [Hb Hrest].
  apply Z.eqb_eq in Hdlc. simpl can.dlc in Hdlc. simpl can.data in Hdlc.
  unfold NodeSpecific.getMessage, bytearray_append_int. run_method.
  rewrite Hb. simpl.
  rewrite bytearray_extend_bytes by exact Hrest. simpl.
  rewrite Hdlc. f_equal. f_equal. lia.
Qed.

(** ** The control code registry *)

(** C9: for every code in 0..255 the description is found: for 0..19 it is
    the entry of the fixed table, for 20..127 "Reserved NSM <code>", for
    128..255 "User Defined NSM <code>". *)
Theorem describe_total (code : Z) :
  0 <= code <= 255 ->
  exists name, NodeSpecific.describe code = Ok name
    /\ (code <= 19 -> nth_error NodeSpecific.codes (Z.to_nat code) = Some name)
    /\ (20 <= code <= 127 -> name = ("Reserved NSM " ++ str_int code)%string)
    /\ (128 <= code -> name = ("User Defined NSM " ++ str_int code)%string).
Proof.
  intros Hrange. unfold NodeSpecific.describe.
  destruct (Z.le_gt_cases code 19) as [Hlow | Hhigh].
  - destruct (nth_error NodeSpecific.codes (Z.to_nat code)) as [name |] eqn:Hnth.
    + exists name.
      rewrite <- (Z2Nat.id code) at 1 by lia.
      rewrite (py_index_nth_error _ _ _ Hnth).
      repeat split; intros; try reflexivity; lia.
    + apply nth_error_None in Hnth. simpl in Hnth. lia.
  - rewrite py_index_beyond by (simpl; lia).
    eexists. split; [reflexivity |].
    repeat split; intros Hc; try lia.
    + destruct (Z.ltb_spec code 128); [reflexivity | lia].
    + destruct (Z.ltb_spec code 128); [lia | reflexivity].
Qed.

Lemma describe_total_witness :
  (0 <= 2 <= 255 /\ NodeSpecific.describe 2 = Ok "Node ID Set"%string)
  /\ (0 <= 50 <= 255 /\ NodeSpecific.describe 50 = Ok "Reserved NSM 50"%string)
  /\ (0 <= 200 <= 255
      /\ NodeSpecific.describe 200 = Ok "User Defined NSM 200"%string).
Proof.
  split; [| split]; (split; [lia |]).
  - destruct (describe_total 2 ltac:(lia)) as (name & Hd & Htable & _ & _).
    rewrite Hd. f_equal.
    specialize (Htable ltac:(lia)). simpl in Htable. congruence.
  - destruct (describe_total 50 ltac:(lia)) as (name & Hd & _ & Hres & _).
    rewrite Hd. f_equal. apply Hres. lia.
  - destruct (describe_total 200 ltac:(lia)) as (name & Hd & _ & _ & Husr).
    rewrite Hd. f_equal. apply Husr. lia.
Defined.

(** ** The control code assertion *)

(** Repeated case analysis on the tests and subscripts of a method body:
    booleans and subscript results only, never a call left to run. *)
Ltac split_cases :=
  repeat (match goal with
          | |- context [match ?x with _ => _ end] =>
              lazymatch type of x with
              | bool => destruct x eqn:?
              | result _ => destruct x eqn:?
              | option _ => destruct x eqn:?
              end
          end; run_method).

(** C10: a variant's decode of a frame whose first payload byte is not its
    control code stops at the assertion, whatever the payload length, having
    assigned [sendNode] and [controlCode] only; when the first byte is its
    control code, decode never ends in an assertion failure. *)
Theorem decode_asserts_control_code (msg : can.Message) (b : Z) (rest : list Z) :
  can.data msg = b :: rest ->
  (b <> 0 ->
   forall s, NodeIdentification.setMessage msg s =
     (NodeIdentification.set_controlCode b
        (NodeIdentification.set_sendNode (PyInt (can.arbitration_id msg - 1792)) s),
      Raise AssertionError))
  /\ (b <> 1 ->
      forall s, BitRateSet.setMessage msg s =
        (BitRateSet.set_controlCode b
           (BitRateSet.set_sendNode (PyInt (can.arbitration_id msg - 1792)) s),
         Raise AssertionError))
  /\ (b <> 2 ->
      forall s, NodeIDSet.setMessage msg s =
        (NodeIDSet.set_controlCode b
           (NodeIDSet.set_sendNode (PyInt (can.arbitration_id msg - 1792)) s),
         Raise AssertionError))
  /\ (b = 0 -> forall s, snd (NodeIdentification.setMessage msg s) <> Raise AssertionError)
  /\ (b = 1 -> forall s, snd (BitRateSet.setMessage msg s) <> Raise AssertionError)
  /\ (b = 2 -> forall s, snd (NodeIDSet.setMessage msg s) <> Raise AssertionError).
Proof.
  intros Hdata.
  split; [| split; [| split; [| split; [| split]]]].
  - intros Hb s. unfold NodeIdentification.setMessage. run_method.
    rewrite Hdata, py_index_0. simpl.
    destruct (Z.eqb_spec b 0); [contradiction | reflexivity].
  - intros Hb s. unfold BitRateSet.setMessage. run_method.
    rewrite Hdata, py_index_0. simpl.
    destruct (Z.eqb_spec b 1); [contradiction | reflexivity].
  - intros Hb s. unfold NodeIDSet.setMessage. run_method.
    rewrite Hdata, py_index_0. simpl.
    destruct (Z.eqb_spec b 2); [contradiction | reflexivity].
  - intros -> s. unfold NodeIdentification.setMessage. run_method.
    rewrite Hdata, py_index_0. simpl.
    unfold NodeIdentification.setDevice, NodeIdentification.setFwrev,
      NodeIdentification.setModel.
    split_cases; try congruence;
      match goal with
      | H : py_index _ _ = Raise _ |- _ => apply py_index_raises in H; congruence
      end.
  - intros -> s. unfold BitRateSet.setMessage, BitRateSet.setBitRate. run_method.
    rewrite Hdata, py_index_0. simpl.
    split_cases; try congruence;
      match goal with
      | H : py_index _ _ = Raise _ |- _ => apply py_index_raises in H; congruence
      end.
  - intros -> s. unfold NodeIDSet.setMessage, NodeIDSet.setNewNode. run_method.
    rewrite Hdata, py_index_0. simpl.
    split_cases; try congruence;
      match goal with
      | H : py_index _ _ = Raise _ |- _ => apply py_index_raises in H; congruence
      end.
Qed.

Lemma decode_asserts_control_code_witness :
  can.data (frame_short 1) = 1 :: []
  /\ NodeIdentification.decode (frame_short 1) = Raise AssertionError
  /\ NodeIDSet.decode (frame_short 1) = Raise AssertionError
  /\ BitRateSet.decode (frame_short 1) <> Raise AssertionError.
Proof.
  pose proof (decode_asserts_control_code (frame_short 1) 1 [] eq_refl)
    as (Hident & _ & Hidset & _ & Hrate & _).
  split; [reflexivity |].
  split; [| split].
  - unfold NodeIdentification.decode, NodeIdentification.new,
      NodeIdentification.__init__.
    rewrite (Hident ltac:(lia) NodeIdentification.blank). reflexivity.
  - unfold NodeIDSet.decode, NodeIDSet.new, NodeIDSet.__init__.
    rewrite (Hidset ltac:(lia) NodeIDSet.blank). reflexivity.
  - specialize (Hrate eq_refl BitRateSet.blank).
    unfold BitRateSet.decode, BitRateSet.new, BitRateSet.__init__.
    destruct (BitRateSet.setMessage (frame_short 1) BitRateSet.blank) as [s [u | e]];
      simpl in *; congruence.
Defined.

(** ** Field setters *)

Lemma dict_get_bitrates (v : Z) :
  v <> 125 -> v <> 250 -> v <> 500 -> v <> 1000 ->
  BitRateSet.dict_get BitRateSet.bitrates v = None.
Proof.
  intros H1 H2 H3 H4. cbn [BitRateSet.dict_get BitRateSet.bitrates].
  destruct (Z.eqb_spec 125 v); [congruence |].
  destruct (Z.eqb_spec 250 v); [congruence |].
  destruct (Z.eqb_spec 500 v); [congruence |].
  destruct (Z.eqb_spec 1000 v); [congruence |].
  reflexivity.
Qed.

Lemma dict_get_code (v code : Z) :
  BitRateSet.dict_get BitRateSet.bitrates v = Some code -> 1 <= code <= 4.
Proof.
  cbn [BitRateSet.dict_get BitRateSet.bitrates].
  destruct (125 =? v); [intros H; inversion H; lia |].
  destruct (250 =? v); [intros H; inversion H; lia |].
  destruct (500 =? v); [intros H; inversion H; lia |].
  destruct (1000 =? v); [intros H; inversion H; lia |].
  discriminate.
Qed.

Arguments BitRateSet.dict_get : simpl never.

(** C5: each setter accepts exactly its domain. An in-domain value is
    stored ([bitrate]: 1..4 as given, 125, 250, 500, 1000 as 1, 2, 3, 4) and
    the role is switched; an out-of-domain value raises [ValueError] and
    leaves the whole object, the field and [msgType] included, as it was. *)
Theorem setters_accept_domain_or_leave_unchanged (v : Z) :
  (forall s : NodeIdentification.t,
      (0 <= v <= 255 ->
       NodeIdentification.setDevice v s =
         (NodeIdentification.set_msgType MSG_RESPONSE
            (NodeIdentification.set_device v s), Ok tt))
      /\ (~ 0 <= v <= 255 ->
          NodeIdentification.setDevice v s = (s, Raise ValueError))
      /\ (0 <= v <= 255 ->
          NodeIdentification.setFwrev v s =
            (NodeIdentification.set_msgType MSG_RESPONSE
               (NodeIdentification.set_fwrev v s), Ok tt))
      /\ (~ 0 <= v <= 255 ->
          NodeIdentification.setFwrev v s = (s, Raise ValueError))
      /\ (0 <= v <= 0xFFFFFF ->
          NodeIdentification.setModel v s =
            (NodeIdentification.set_msgType MSG_RESPONSE
               (NodeIdentification.set_model v s), Ok tt))
      /\ (~ 0 <= v <= 0xFFFFFF ->
          NodeIdentification.setModel v s = (s, Raise ValueError)))
  /\ (forall s : NodeIDSet.t,
         (1 <= v <= 255 ->
          NodeIDSet.setNewNode v s =
            (NodeIDSet.set_msgType MSG_REQUEST (NodeIDSet.set_newnode v s), Ok tt))
         /\ (~ 1 <= v <= 255 ->
             NodeIDSet.setNewNode v s = (s, Raise ValueError)))
  /\ (forall s : BitRateSet.t,
         (1 <= v <= 4 ->
          BitRateSet.setBitRate v s =
            (BitRateSet.set_msgType MSG_REQUEST (BitRateSet.set_bitrate v s), Ok tt))
         /\ (forall code, In (v, code) [(125, 1); (250, 2); (500, 3); (1000, 4)] ->
             BitRateSet.setBitRate v s =
               (BitRateSet.set_msgType MSG_REQUEST (BitRateSet.set_bitrate code s),
                Ok tt))
         /\ (~ 1 <= v <= 4 -> v <> 125 -> v <> 250 -> v <> 500 -> v <> 1000 ->
             BitRateSet.setBitRate v s = (s, Raise ValueError))).
Proof.
  split; [| split]; intros s.
  - unfold NodeIdentification.setDevice, NodeIdentification.setFwrev,
      NodeIdentification.setModel.
    repeat split; intros Hv;
      repeat match goal with
             | |- context [?a >? ?b] => destruct (Z.gtb_spec a b)
             | |- context [?a <? ?b] => destruct (Z.ltb_spec a b)
             end; simpl; try lia; reflexivity.
  - unfold NodeIDSet.setNewNode.
    split; intros Hv; run_method;
      destruct (Z.geb_spec v 1); destruct (Z.leb_spec v 255); simpl; try lia;
      reflexivity.
  - unfold BitRateSet.setBitRate.
    split; [| split].
    + intros Hv. run_method.
      destruct (Z.geb_spec v 1); destruct (Z.leb_spec v 4); simpl; try lia.
      reflexivity.
    + intros code Hin. simpl in Hin.
      destruct Hin as [H | [H | [H | [H | []]]]]; inversion H; subst; reflexivity.
    + intros Hv H1 H2 H3 H4. run_method.
      rewrite (dict_get_bitrates v H1 H2 H3 H4).
      destruct (Z.geb_spec v 1); destruct (Z.leb_spec v 4); simpl; try lia;
        reflexivity.
Qed.

Lemma setters_accept_domain_or_leave_unchanged_witness :
  (0 <= 255 <= 255
   /\ NodeIdentification.setDevice 255 NodeIdentification.blank =
        (NodeIdentification.mk None None None (Some MSG_RESPONSE) (Some 255) None None,
         Ok tt))
  /\ (~ 1 <= 256 <= 255
      /\ NodeIDSet.setNewNode 256 NodeIDSet.blank = (NodeIDSet.blank, Raise ValueError))
  /\ (In (500, 3) [(125, 1); (250, 2); (500, 3); (1000, 4)]
      /\ BitRateSet.setBitRate 500 BitRateSet.blank =
           (BitRateSet.mk None None None (Some MSG_REQUEST) None (Some 3), Ok tt))
  /\ (~ 1 <= 5 <= 4
      /\ BitRateSet.setBitRate 5 BitRateSet.blank = (BitRateSet.blank, Raise ValueError)).
Proof.
  split; [| split; [| split]].
  - split; [lia |].
    destruct (setters_accept_domain_or_leave_unchanged 255) as (Hident & _ & _).
    destruct (Hident NodeIdentification.blank) as (Hdev & _).
    apply Hdev. lia.
  - split; [lia |].
    destruct (setters_accept_domain_or_leave_unchanged 256) as (_ & Hidset & _).
    destruct (Hidset NodeIDSet.blank) as (_ & Hbad).
    apply Hbad. lia.
  - split; [simpl; tauto |].
    destruct (setters_accept_domain_or_leave_unchanged 500) as (_ & _ & Hrate).
    destruct (Hrate BitRateSet.blank) as (_ & Hkbps & _).
    apply (Hkbps 3). simpl. tauto.
  - split; [lia |].
    destruct (setters_accept_domain_or_leave_unchanged 5) as (_ & _ & Hrate).
    destruct (Hrate BitRateSet.blank) as (_ & _ & Hbad).
    apply Hbad; lia.
Defined.

(** C6: after a setter that returned, the role is the one of the field set:
    [MSG_RESPONSE] after [device], [fwrev] or [model], [MSG_REQUEST] after
    [bitrate] or [newnode]. *)
Theorem setter_success_sets_role (v : Z) :
  (forall s s' : NodeIdentification.t,
      (NodeIdentification.setDevice v s = (s', Ok tt) ->
       NodeIdentification.msgType s' = Some MSG_RESPONSE
       /\ NodeIdentification.device s' = Some v)
      /\ (NodeIdentification.setFwrev v s = (s', Ok tt) ->
          NodeIdentification.msgType s' = Some MSG_RESPONSE
          /\ NodeIdentification.fwrev s' = Some v)
      /\ (NodeIdentification.setModel v s = (s', Ok tt) ->
          NodeIdentification.msgType s' = Some MSG_RESPONSE
          /\ NodeIdentification.model s' = Some v))
  /\ (forall s s' : BitRateSet.t,
         BitRateSet.setBitRate v s = (s', Ok tt) ->
         BitRateSet.msgType s' = Some MSG_REQUEST
         /\ exists code, BitRateSet.bitrate s' = Some code /\ 1 <= code <= 4)
  /\ (forall s s' : NodeIDSet.t,
         NodeIDSet.setNewNode v s = (s', Ok tt) ->
         NodeIDSet.msgType s' = Some MSG_REQUEST
         /\ NodeIDSet.newnode s' = Some v).
Proof.
  split; [| split].
  - intros s s'.
    unfold NodeIdentification.setDevice, NodeIdentification.setFwrev,
      NodeIdentification.setModel.
    repeat split;
      match goal with
      | H : (if ?b then _ else _) _ = _ |- _ =>
          destruct b; revert H; run_method; intros H; inversion H; reflexivity
      end.
  - intros s s'. unfold BitRateSet.setBitRate. run_method.
    destruct ((v >=? 1) && (v <=? 4)) eqn:Hdom; simpl.
    + intros Heq. inversion Heq. simpl. split; [reflexivity |].
      apply andb_prop in Hdom as [Hlo Hhi].
      exists v. split; [reflexivity | lia].
    + destruct (BitRateSet.dict_get BitRateSet.bitrates v) as [code |] eqn:Hget;
        simpl; intros Heq; inversion Heq.
      simpl. split; [reflexivity |].
      exists code. split; [reflexivity | exact (dict_get_code v code Hget)].
  - intros s s'. unfold NodeIDSet.setNewNode. run_method.
    destruct ((v >=? 1) && (v <=? 255)); simpl; intros H; inversion H.
    split; reflexivity.
Qed.

Lemma setter_success_sets_role_witness :
  NodeIdentification.setModel 70000 NodeIdentification.blank =
    (NodeIdentification.mk None None None (Some MSG_RESPONSE) None None (Some 70000),
     Ok tt)
  /\ NodeIdentification.msgType
       (NodeIdentification.mk None None None (Some MSG_RESPONSE) None None (Some 70000))
     = Some MSG_RESPONSE
  /\ NodeIDSet.setNewNode 9 NodeIDSet.blank =
       (NodeIDSet.mk None None None (Some MSG_REQUEST) (Some 9), Ok tt)
  /\ NodeIDSet.msgType (NodeIDSet.mk None None None (Some MSG_REQUEST) (Some 9))
     = Some MSG_REQUEST.
Proof.
  split; [reflexivity |]. split; [| split; [reflexivity |]].
  - destruct (setter_success_sets_role 70000) as (Hident & _ & _).
    destruct (Hident NodeIdentification.blank
                (NodeIdentification.mk None None None (Some MSG_RESPONSE)
                   None None (Some 70000))) as (_ & _ & Hmodel).
    apply Hmodel. reflexivity.
  - destruct (setter_success_sets_role 9) as (_ & _ & Hidset).
    apply (Hidset NodeIDSet.blank). reflexivity.
Defined.

(** ** Bytes and the 24-bit model number *)

Lemma testbit_small (a k n : Z) :
  0 <= a < 2 ^ k -> 0 <= k <= n -> Z.testbit a n = false.
Proof.
  intros Ha Hk.
  destruct (Z.eq_dec a 0) as [-> | Hnz]; [apply Z.bits_0 |].
  apply Z.bits_above_log2; [lia |].
  assert (Z.log2 a < k) by (apply Z.log2_lt_pow2; lia).
  lia.
Qed.

Lemma land_shiftl_small (a b k : Z) :
  0 <= a < 2 ^ k -> 0 <= k -> Z.land a (Z.shiftl b k) = 0.
Proof.
  intros Ha Hk. apply Z.bits_inj'. intros n Hn.
  rewrite Z.land_spec, Z.bits_0.
  destruct (Z.lt_ge_cases n k) as [Hlt | Hge].
  - rewrite Z.shiftl_spec_low by lia. apply andb_false_r.
  - rewrite (testbit_small a k n) by lia. reflexivity.
Qed.

(** On three bytes the sum the decoder computes is the bitwise or. *)
Lemma model_sum_is_or (b5 b6 b7 : Z) :
  0 <= b5 <= 255 -> 0 <= b6 <= 255 -> 0 <= b7 <= 255 ->
  b5 + Z.shiftl b6 8 + Z.shiftl b7 16
  = Z.lor (Z.lor b5 (Z.shiftl b6 8)) (Z.shiftl b7 16).
Proof.
  intros H5 H6 H7.
  assert (H56 : b5 + Z.shiftl b6 8 = Z.lor b5 (Z.shiftl b6 8)).
  { rewrite Z.add_nocarry_lxor by (apply land_shiftl_small; simpl; lia).
    apply Z.lxor_lor. apply land_shiftl_small; simpl; lia. }
  assert (Hsmall : 0 <= b5 + Z.shiftl b6 8 < 2 ^ 16).
  { rewrite Z.shiftl_mul_pow2 by lia. simpl. lia. }
  rewrite Z.add_nocarry_lxor by (apply land_shiftl_small; [exact Hsmall | lia]).
  rewrite Z.lxor_lor by (apply land_shiftl_small; [exact Hsmall | lia]).
  rewrite H56. reflexivity.
Qed.

Lemma model_sum_range (b5 b6 b7 : Z) :
  0 <= b5 <= 255 -> 0 <= b6 <= 255 -> 0 <= b7 <= 255 ->
  0 <= b5 + Z.shiftl b6 8 + Z.shiftl b7 16 <= 0xFFFFFF.
Proof.
  intros H5 H6 H7. rewrite !Z.shiftl_mul_pow2 by lia.
  change (2 ^ 8) with 256. change (2 ^ 16) with 65536. lia.
Qed.

(** The three bytes the encoder makes of a model number. *)
Lemma model_bytes (m : Z) :
  Z.land m 0x0000FF = m mod 256
  /\ Z.shiftr (Z.land m 0x00FF00) 8 = (m / 256) mod 256
  /\ Z.shiftr (Z.land m 0xFF0000) 16 = (m / 65536) mod 256.
Proof.
  split; [| split].
  - change 0x0000FF with (Z.ones 8). rewrite Z.land_ones by lia. reflexivity.
  - rewrite Z.shiftr_land. change (Z.shiftr 0x00FF00 8) with (Z.ones 8).
    rewrite Z.land_ones by lia. rewrite Z.shiftr_div_pow2 by lia. reflexivity.
  - rewrite Z.shiftr_land. change (Z.shiftr 0xFF0000 16) with (Z.ones 8).
    rewrite Z.land_ones by lia. rewrite Z.shiftr_div_pow2 by lia. reflexivity.
Qed.

Lemma model_reassembled (m : Z) :
  0 <= m <= 0xFFFFFF ->
  m mod 256 + Z.shiftl ((m / 256) mod 256) 8 + Z.shiftl ((m / 65536) mod 256) 16 = m.
Proof.
  intros Hm. rewrite !Z.shiftl_mul_pow2 by lia.
  change (2 ^ 8) with 256. change (2 ^ 16) with 65536.
  pose proof (Z.div_mod m 256 ltac:(lia)) as H1.
  pose proof (Z.div_mod (m / 256) 256 ltac:(lia)) as H2.
  assert (H3 : m / 65536 = m / 256 / 256) by (rewrite Z.div_div by lia; reflexivity).
  assert (H4 : (m / 65536) mod 256 = m / 65536).
  { apply Z.mod_small. split; [apply Z.div_pos; lia |].
    apply Z.div_lt_upper_bound; lia. }
  rewrite H4, H3. lia.
Qed.

(** ** Node Identification: decode *)

#[local] Arguments Z.shiftl : simpl never.
#[local] Arguments Z.shiftr : simpl never.
#[local] Arguments Z.land : simpl never.
#[local] Arguments Z.lor : simpl never.

(** Running a constructor on an explicit payload. *)
Ltac run_decode :=
  unfold NodeIdentification.decode, NodeIdentification.new, NodeIdentification.__init__,
    NodeIdentification.setMessage,
    BitRateSet.decode, BitRateSet.new, BitRateSet.__init__, BitRateSet.setMessage,
    NodeIDSet.decode, NodeIDSet.new, NodeIDSet.__init__, NodeIDSet.setMessage;
  run_method.

(** Settling the range tests of the setters from the hypotheses. *)
Ltac settle_tests :=
  repeat match goal with
         | |- context [?a >? ?b] => destruct (Z.gtb_spec a b); try lia
         | |- context [?a <? ?b] => destruct (Z.ltb_spec a b); try lia
         | |- context [?a >=? ?b] => destruct (Z.geb_spec a b); try lia
         | |- context [?a <=? ?b] => destruct (Z.leb_spec a b); try lia
         | |- context [?a =? ?b] => destruct (Z.eqb_spec a b); try lia
         end.

(** A payload of length 2 is a request and assigns no further field. *)
Lemma ident_decode_request (a : Z) (x : bool) (d : Z) :
  NodeIdentification.decode (can.mkMessage a x [0; d] 2) =
    Ok (NodeIdentification.mk (Some (PyInt (a - 1792))) (Some 0) (Some (PyInt d))
          (Some MSG_REQUEST) None None None).
Proof. reflexivity. Qed.

(** A payload of length 8 is a response: [device] is byte 3, [fwrev] byte 4
    and [model] bytes 5 to 7, least significant first. *)
Lemma ident_decode_response (a : Z) (x : bool) (d b2 b3 b4 b5 b6 b7 : Z) :
  can.wf (can.mkMessage a x [0; d; b2; b3; b4; b5; b6; b7] 8) = true ->
  NodeIdentification.decode (can.mkMessage a x [0; d; b2; b3; b4; b5; b6; b7] 8) =
    Ok (NodeIdentification.mk (Some (PyInt (a - 1792))) (Some 0) (Some (PyInt d))
          (Some MSG_RESPONSE) (Some b3) (Some b4)
          (Some (Z.lor (Z.lor b5 (Z.shiftl b6 8)) (Z.shiftl b7 16)))).
Proof.
  intros Hwf. unfold can.wf in Hwf. simpl in Hwf.
  repeat (apply andb_prop in Hwf; destruct Hwf as [? Hwf]).
  repeat match goal with
         | H : _ && _ = true |- _ => apply andb_prop in H; destruct H
         end.
  assert (Hb5 : 0 <= b5 <= 255) by lia.
  assert (Hb6 : 0 <= b6 <= 255) by lia.
  assert (Hb7 : 0 <= b7 <= 255) by lia.
  rewrite <- (model_sum_is_or b5 b6 b7 Hb5 Hb6 Hb7).
  pose proof (model_sum_range b5 b6 b7 Hb5 Hb6 Hb7) as Hm.
  run_decode. unfold py_index. simpl.
  unfold NodeIdentification.setDevice, NodeIdentification.setFwrev,
    NodeIdentification.setModel.
  settle_tests. reflexivity.
Qed.

(** With the control code and [destNode] present, any [dlc] other than 2 and
    8 is refused with [MsgSizeError]. *)
Lemma ident_decode_other_length (msg : can.Message) (d : Z) (rest : list Z) :
  can.data msg = 0 :: d :: rest ->
  can.dlc msg <> 2 -> can.dlc msg <> 8 ->
  NodeIdentification.decode msg = Raise MsgSizeError.
Proof.
  intros Hdata H2 H8. run_decode.
  rewrite Hdata, py_index_0. simpl. rewrite py_index_1. simpl.
  destruct (Z.eqb_spec (can.dlc msg) 2); [contradiction |].
  destruct (Z.eqb_spec (can.dlc msg) 8); [contradiction |].
  reflexivity.
Qed.

(** C2, where the code departs from it: a Node Identification frame of
    payload length 1 is a frame of the wrong size, and decode does not
    refuse it with [MsgSizeError]: [destNode] is read before the length is
    looked at, and the subscript raises [IndexError]. *)
Theorem ident_decode_length_one :
  can.wf (frame_short 0) = true
  /\ py_index (can.data (frame_short 0)) 0 = Ok 0
  /\ can.dlc (frame_short 0) = 1
  /\ NodeIdentification.decode (frame_short 0) = Raise IndexError
  /\ NodeIdentification.decode (frame_short 0) <> Raise MsgSizeError.
Proof.
  repeat split; try reflexivity. discriminate.
Qed.

(** ** Bit Rate Set: decode *)

(** C3, amended: a Bit Rate Set frame of length 2 is a successful response;
    of length 3 with third byte 0xFF a failed response; of length 3 with a
    third byte in 1..4 a request with that byte as [bitrate]; of length 3
    with any third byte that is none of 1..4, 125, 250 and 0xFF it is
    refused with the setter's [ValueError]; and with the control code and
    [destNode] present any other length is refused with [MsgSizeError]. *)
Theorem bitrate_decode (a : Z) (x : bool) (d : Z) :
  BitRateSet.decode (can.mkMessage a x [1; d] 2) =
    Ok (BitRateSet.mk (Some (PyInt (a - 1792))) (Some 1) (Some (PyInt d))
          (Some MSG_RESPONSE) (Some MSG_SUCCESS) None)
  /\ BitRateSet.decode (can.mkMessage a x [1; d; 0xFF] 3) =
       Ok (BitRateSet.mk (Some (PyInt (a - 1792))) (Some 1) (Some (PyInt d))
             (Some MSG_RESPONSE) (Some MSG_FAIL) None)
  /\ (forall b, 1 <= b <= 4 ->
        BitRateSet.decode (can.mkMessage a x [1; d; b] 3) =
          Ok (BitRateSet.mk (Some (PyInt (a - 1792))) (Some 1) (Some (PyInt d))
                (Some MSG_REQUEST) None (Some b)))
  /\ (forall b, 0 <= b <= 255 -> ~ 1 <= b <= 4 ->
        b <> 125 -> b <> 250 -> b <> 0xFF ->
        BitRateSet.decode (can.mkMessage a x [1; d; b] 3) = Raise ValueError)
  /\ (forall msg rest,
        can.data msg = 1 :: d :: rest ->
        can.dlc msg <> 2 -> can.dlc msg <> 3 ->
        BitRateSet.decode msg = Raise MsgSizeError).
Proof.
  split; [reflexivity |]. split; [reflexivity |]. split; [| split].
  - intros b Hb. run_decode. unfold py_index. simpl.
    destruct (Z.eqb_spec b 255); [lia |]. simpl.
    unfold BitRateSet.setBitRate. run_method.
    destruct (Z.geb_spec b 1); [| lia]. destruct (Z.leb_spec b 4); [| lia].
    reflexivity.
  - intros b Hbyte Hb H125 H250 H255. run_decode. unfold py_index. simpl.
    destruct (Z.eqb_spec b 255); [lia |]. simpl.
    unfold BitRateSet.setBitRate. run_method.
    rewrite (dict_get_bitrates b) by lia.
    destruct (Z.geb_spec b 1); destruct (Z.leb_spec b 4); simpl; try lia;
      reflexivity.
  - intros msg rest Hdata H2 H3. run_decode.
    rewrite Hdata, py_index_0. simpl. rewrite py_index_1. simpl.
    destruct (Z.eqb_spec (can.dlc msg) 2); [contradiction |].
    destruct (Z.eqb_spec (can.dlc msg) 3); [contradiction |].
    reflexivity.
Qed.

Lemma bitrate_decode_witness :
  (1 <= 2 <= 4
   /\ BitRateSet.decode (can.mkMessage 1793 false [1; 5; 2] 3) =
        Ok (BitRateSet.mk (Some (PyInt 1)) (Some 1) (Some (PyInt 5))
              (Some MSG_REQUEST) None (Some 2)))
  /\ (0 <= 5 <= 255 /\ ~ 1 <= 5 <= 4
      /\ BitRateSet.decode frame_bitrate_5 = Raise ValueError)
  /\ (can.data (can.mkMessage 1793 false [1; 5; 2; 0] 4) = 1 :: 5 :: [2; 0]
      /\ BitRateSet.decode (can.mkMessage 1793 false [1; 5; 2; 0] 4)
         = Raise MsgSizeError).
Proof.
  destruct (bitrate_decode 1793 false 5) as (_ & _ & Hreq & Hbad & Hsize).
  split; [| split].
  - split; [lia |]. apply (Hreq 2). lia.
  - split; [lia |]. split; [lia |]. apply (Hbad 5); lia.
  - split; [reflexivity |].
    apply (Hsize (can.mkMessage 1793 false [1; 5; 2; 0] 4) [2; 0]);
      [reflexivity | simpl; lia | simpl; lia].
Defined.

(** C3 as stated fails: a well-formed Bit Rate Set frame of length 3 whose
    third byte is 5, which is not 0xFF, does not decode to a request with
    bitrate 5: the setter refuses the byte and decode raises [ValueError]. *)
Lemma bitrate_decode_counterexample :
  can.wf frame_bitrate_5 = true
  /\ can.data frame_bitrate_5 = [1; 5; 5]
  /\ BitRateSet.decode frame_bitrate_5 = Raise ValueError
  /\ ~ (exists e, BitRateSet.decode frame_bitrate_5 = Ok e
                  /\ BitRateSet.msgType e = Some MSG_REQUEST
                  /\ BitRateSet.bitrate e = Some 5).
Proof.
  split; [reflexivity |]. split; [reflexivity |]. split; [reflexivity |].
  intros (e & He & _). discriminate He.
Qed.

(** What the setter makes of the two kbps values that fit a byte: a third
    byte 125 or 250 decodes to a request with bit rate code 1 or 2. *)
Lemma bitrate_decode_kbps_byte (a : Z) (x : bool) (d : Z) :
  BitRateSet.decode (can.mkMessage a x [1; d; 125] 3) =
    Ok (BitRateSet.mk (Some (PyInt (a - 1792))) (Some 1) (Some (PyInt d))
          (Some MSG_REQUEST) None (Some 1))
  /\ BitRateSet.decode (can.mkMessage a x [1; d; 250] 3) =
       Ok (BitRateSet.mk (Some (PyInt (a - 1792))) (Some 1) (Some (PyInt d))
             (Some MSG_REQUEST) None (Some 2)).
Proof. split; reflexivity. Qed.

(** A frame of payload length 1 is not refused with [MsgSizeError] either:
    the subscript for [destNode] raises first. *)
Lemma bitrate_decode_length_one :
  BitRateSet.decode (frame_short 1) = Raise IndexError.
Proof. reflexivity. Qed.

(** ** Node ID Set: decode and encode *)

(** Length 3 with a third byte 0x00 is a response with no further field;
    with any other byte it is a request with that byte as [newnode]. *)
Lemma idset_decode_length_three (a : Z) (x : bool) (d : Z) :
  NodeIDSet.decode (can.mkMessage a x [2; d; 0x00] 3) =
    Ok (NodeIDSet.mk (Some (PyInt (a - 1792))) (Some 2) (Some (PyInt d))
          (Some MSG_RESPONSE) None)
  /\ (forall b, 0 <= b <= 255 -> b <> 0x00 ->
        NodeIDSet.decode (can.mkMessage a x [2; d; b] 3) =
          Ok (NodeIDSet.mk (Some (PyInt (a - 1792))) (Some 2) (Some (PyInt d))
                (Some MSG_REQUEST) (Some b))).
Proof.
  split; [reflexivity |].
  intros b Hbyte Hb. run_decode. unfold py_index. simpl.
  destruct (Z.eqb_spec b 0); [lia |]. simpl.
  unfold NodeIDSet.setNewNode. run_method.
  destruct (Z.geb_spec b 1); [| lia]. destruct (Z.leb_spec b 255); [| lia].
  reflexivity.
Qed.

(** With the control code and [destNode] present, any [dlc] other than 3 is
    refused with [MsgSizeError]. *)
Lemma idset_decode_other_length (msg : can.Message) (d : Z) (rest : list Z) :
  can.data msg = 2 :: d :: rest ->
  can.dlc msg <> 3 ->
  NodeIDSet.decode msg = Raise MsgSizeError.
Proof.
  intros Hdata H3. run_decode.
  rewrite Hdata, py_index_0. simpl. rewrite py_index_1. simpl.
  destruct (Z.eqb_spec (can.dlc msg) 3); [contradiction |].
  reflexivity.
Qed.

(** The payload of a response is [controlCode, destNode, 0x00], that of a
    request [controlCode, destNode, newnode]. *)
Lemma idset_encode (e : NodeIDSet.t) (c d : Z) :
  NodeIDSet.controlCode e = Some c -> 0 <= c <= 255 ->
  NodeIDSet.destNode e = Some (PyInt d) -> 0 <= d <= 255 ->
  (NodeIDSet.msgType e = Some MSG_RESPONSE ->
   NodeIDSet.getData e = Ok [c; d; 0x00])
  /\ (forall n, NodeIDSet.msgType e = Some MSG_REQUEST ->
        NodeIDSet.newnode e = Some n -> 1 <= n <= 255 ->
        NodeIDSet.getData e = Ok [c; d; n]).
Proof.
  intros Hc Hcr Hd Hdr. unfold NodeIDSet.getData, bytearray_append, bytearray_append_int.
  rewrite Hc, Hd. split.
  - intros Hmt. rewrite Hmt. run_method. settle_tests. reflexivity.
  - intros n Hmt Hn Hnr. rewrite Hmt, Hn. run_method. settle_tests. reflexivity.
Qed.

(** C4, where the code departs from it: a Node ID Set frame of payload
    length 1 is a frame whose length is not 3, and decode does not refuse it
    with [MsgSizeError]: [destNode] is read before the length is looked at,
    and the subscript raises [IndexError]. *)
Theorem idset_decode_length_one :
  can.wf (frame_short 2) = true
  /\ py_index (can.data (frame_short 2)) 0 = Ok 2
  /\ can.dlc (frame_short 2) = 1
  /\ NodeIDSet.decode (frame_short 2) = Raise IndexError
  /\ NodeIDSet.decode (frame_short 2) <> Raise MsgSizeError.
Proof.
  repeat split; try reflexivity. discriminate.
Qed.

(** ** Round trip *)

(** Taking a fully populated entity apart: its fields as the validity test
    found them. *)
Ltac open_entity e Hv :=
  destruct e as [];
  unfold NodeIdentification_valid, BitRateSet_valid, NodeIDSet_valid,
    node_ok, in_range, code_is, is_byte in Hv;
  simpl in Hv;
  repeat match type of Hv with
         | context [match ?o with _ => _ end] =>
             lazymatch type of o with
             | option _ => destruct o
             | pyval => destruct o
             | MsgType => destruct o
             end;
             simpl in Hv; rewrite ?andb_false_r in Hv; try discriminate Hv
         end;
  repeat match goal with
         | H : _ && _ = true |- _ => apply andb_prop in H; destruct H
         end;
  simpl.

Lemma ident_roundtrip (e : NodeIdentification.t) :
  NodeIdentification_valid e = true ->
  exists msg e',
    NodeIdentification.getMessage e = Ok msg
    /\ NodeIdentification.decode msg = Ok e'
    /\ NodeIdentification.sendNode e' = NodeIdentification.sendNode e
    /\ NodeIdentification.destNode e' = NodeIdentification.destNode e
    /\ NodeIdentification.msgType e' = NodeIdentification.msgType e
    /\ (NodeIdentification.msgType e = Some MSG_RESPONSE ->
        NodeIdentification.device e' = NodeIdentification.device e
        /\ NodeIdentification.fwrev e' = NodeIdentification.fwrev e
        /\ NodeIdentification.model e' = NodeIdentification.model e).
Proof.
  intros Hv. open_entity e Hv.
  all: match goal with
       | H : (?c =? 0) = true |- _ => apply Z.eqb_eq in H; subst c
       end.
  - (* request *)
    unfold NodeIdentification.getMessage, NodeIdentification.getData,
      bytearray_append, bytearray_append_int.
    run_method. settle_tests. simpl.
    eexists. eexists. split; [reflexivity |].
    split; [reflexivity |]. simpl.
    repeat split; try discriminate. f_equal. f_equal. lia.
  - (* response *)
    match goal with
    | H : (?m <=? 16777215) = true |- _ =>
        destruct (model_bytes m) as (E1 & E2 & E3);
        assert (Hm : 0 <= m <= 0xFFFFFF) by lia;
        pose proof (Z.mod_pos_bound m 256 ltac:(lia)) as B1;
        pose proof (Z.mod_pos_bound (m / 256) 256 ltac:(lia)) as B2;
        pose proof (Z.mod_pos_bound (m / 65536) 256 ltac:(lia)) as B3;
        pose proof (model_reassembled m Hm) as Hre
    end.
    unfold NodeIdentification.getMessage, NodeIdentification.getData,
      bytearray_append, bytearray_extend, bytearray_append_int.
    run_method. rewrite E1, E2, E3.
    settle_tests. simpl.
    eexists. eexists. split; [reflexivity |].
    run_decode. unfold py_index. simpl.
    unfold NodeIdentification.setDevice, NodeIdentification.setFwrev,
      NodeIdentification.setModel.
    rewrite Hre. settle_tests. simpl.
    split; [reflexivity |]. simpl.
    repeat split. f_equal. f_equal. lia.
Qed.

Lemma bitrate_roundtrip (e : BitRateSet.t) :
  BitRateSet_valid e = true ->
  exists msg e',
    BitRateSet.getMessage e = Ok msg
    /\ BitRateSet.decode msg = Ok e'
    /\ BitRateSet.sendNode e' = BitRateSet.sendNode e
    /\ BitRateSet.destNode e' = BitRateSet.destNode e
    /\ BitRateSet.msgType e' = BitRateSet.msgType e
    /\ (BitRateSet.msgType e = Some MSG_RESPONSE ->
        BitRateSet.status e' = BitRateSet.status e)
    /\ (BitRateSet.msgType e = Some MSG_REQUEST ->
        BitRateSet.bitrate e' = BitRateSet.bitrate e).
Proof.
  intros Hv. open_entity e Hv.
  all: match goal with
       | H : (?c =? 1) = true |- _ => apply Z.eqb_eq in H; subst c
       end.
  - (* request *)
    unfold BitRateSet.getMessage, BitRateSet.getData,
      bytearray_append, bytearray_append_int.
    run_method. settle_tests. simpl.
    eexists. eexists. split; [reflexivity |].
    run_decode. unfold py_index. simpl. settle_tests. simpl.
    unfold BitRateSet.setBitRate. run_method. settle_tests. simpl.
    split; [reflexivity |]. simpl.
    repeat split; try discriminate. f_equal. f_equal. lia.
  - (* response *)
    match goal with
    | st : Status |- _ => destruct st
    end.
    all: unfold BitRateSet.getMessage, BitRateSet.getData,
      bytearray_append, bytearray_append_int.
    all: run_method; settle_tests; simpl.
    all: eexists; eexists; (split; [reflexivity |]).
    all: split; [reflexivity |]; simpl.
    all: repeat split; try discriminate; f_equal; f_equal; lia.
Qed.

Lemma idset_roundtrip (e : NodeIDSet.t) :
  NodeIDSet_valid e = true ->
  exists msg e',
    NodeIDSet.getMessage e = Ok msg
    /\ NodeIDSet.decode msg = Ok e'
    /\ NodeIDSet.sendNode e' = NodeIDSet.sendNode e
    /\ NodeIDSet.destNode e' = NodeIDSet.destNode e
    /\ NodeIDSet.msgType e' = NodeIDSet.msgType e
    /\ (NodeIDSet.msgType e = Some MSG_REQUEST ->
        NodeIDSet.newnode e' = NodeIDSet.newnode e).
Proof.
  intros Hv. open_entity e Hv.
  all: match goal with
       | H : (?c =? 2) = true |- _ => apply Z.eqb_eq in H; subst c
       end.
  - (* request *)
    unfold NodeIDSet.getMessage, NodeIDSet.getData,
      bytearray_append, bytearray_append_int.
    run_method. settle_tests. simpl.
    eexists. eexists. split; [reflexivity |].
    run_decode. unfold py_index. simpl. settle_tests. simpl.
    unfold NodeIDSet.setNewNode. run_method. settle_tests. simpl.
    split; [reflexivity |]. simpl.
    repeat split; try discriminate. f_equal. f_equal. lia.
  - (* response *)
    unfold NodeIDSet.getMessage, NodeIDSet.getData,
      bytearray_append, bytearray_append_int.
    run_method. settle_tests. simpl.
    eexists. eexists. split; [reflexivity |].
    split; [reflexivity |]. simpl.
    repeat split; try discriminate. f_equal. f_equal. lia.
Qed.

(** C1: for a fully populated entity of any of the three variants, with
    both addresses in 0..255 and the fields of its role in their domains,
    encoding succeeds and decoding the frame gives an entity with the same
    [sendNode], [destNode] and [msgType] and the same fields of that role:
    [device], [fwrev] and [model] of an identification response, [status]
    of a bit rate response, [bitrate] of a bit rate request, [newnode] of a
    node id request. *)
Theorem encode_decode_roundtrip :
  (forall e : NodeIdentification.t,
      NodeIdentification_valid e = true ->
      exists msg e',
        NodeIdentification.getMessage e = Ok msg
        /\ NodeIdentification.decode msg = Ok e'
        /\ NodeIdentification.sendNode e' = NodeIdentification.sendNode e
        /\ NodeIdentification.destNode e' = NodeIdentification.destNode e
        /\ NodeIdentification.msgType e' = NodeIdentification.msgType e
        /\ (NodeIdentification.msgType e = Some MSG_RESPONSE ->
            NodeIdentification.device e' = NodeIdentification.device e
            /\ NodeIdentification.fwrev e' = NodeIdentification.fwrev e
            /\ NodeIdentification.model e' = NodeIdentification.model e))
  /\ (forall e : BitRateSet.t,
         BitRateSet_valid e = true ->
         exists msg e',
           BitRateSet.getMessage e = Ok msg
           /\ BitRateSet.decode msg = Ok e'
           /\ BitRateSet.sendNode e' = BitRateSet.sendNode e
           /\ BitRateSet.destNode e' = BitRateSet.destNode e
           /\ BitRateSet.msgType e' = BitRateSet.msgType e
           /\ (BitRateSet.msgType e = Some MSG_RESPONSE ->
               BitRateSet.status e' = BitRateSet.status e)
           /\ (BitRateSet.msgType e = Some MSG_REQUEST ->
               BitRateSet.bitrate e' = BitRateSet.bitrate e))
  /\ (forall e : NodeIDSet.t,
         NodeIDSet_valid e = true ->
         exists msg e',
           NodeIDSet.getMessage e = Ok msg
           /\ NodeIDSet.decode msg = Ok e'
           /\ NodeIDSet.sendNode e' = NodeIDSet.sendNode e
           /\ NodeIDSet.destNode e' = NodeIDSet.destNode e
           /\ NodeIDSet.msgType e' = NodeIDSet.msgType e
           /\ (NodeIDSet.msgType e = Some MSG_REQUEST ->
               NodeIDSet.newnode e' = NodeIDSet.newnode e)).
Proof.
  split; [exact ident_roundtrip |].
  split; [exact bitrate_roundtrip | exact idset_roundtrip].
Qed.

Lemma encode_decode_roundtrip_witness :
  NodeIdentification_valid ident_response_example = true
  /\ (exists msg e',
         NodeIdentification.getMessage ident_response_example = Ok msg
         /\ NodeIdentification.decode msg = Ok e'
         /\ NodeIdentification.sendNode e' = Some (PyInt 1)
         /\ NodeIdentification.destNode e' = Some (PyInt 5)
         /\ NodeIdentification.msgType e' = Some MSG_RESPONSE
         /\ (Some MSG_RESPONSE = Some MSG_RESPONSE ->
             NodeIdentification.device e' = Some 7
             /\ NodeIdentification.fwrev e' = Some 3
             /\ NodeIdentification.model e' = Some 0x123456))
  /\ BitRateSet_valid bitrate_request_example = true
  /\ (exists msg e',
         BitRateSet.getMessage bitrate_request_example = Ok msg
         /\ BitRateSet.decode msg = Ok e'
         /\ BitRateSet.sendNode e' = Some (PyInt 1)
         /\ BitRateSet.destNode e' = Some (PyInt 5)
         /\ BitRateSet.msgType e' = Some MSG_REQUEST
         /\ (Some MSG_REQUEST = Some MSG_RESPONSE ->
             BitRateSet.status e' = Some MSG_SUCCESS)
         /\ (Some MSG_REQUEST = Some MSG_REQUEST ->
             BitRateSet.bitrate e' = Some 3)).
Proof.
  destruct encode_decode_roundtrip as (Hident & Hrate & _).
  split; [reflexivity |]. split; [| split; [reflexivity |]].
  - apply (Hident ident_response_example). reflexivity.
  - apply (Hrate bitrate_request_example). reflexivity.
Defined.

(** What the round trip does not carry: a request built by
    [BitRateSet(bitrate=500)] still has the [status] the constructor
    assigned, and the decoded request has none. *)
Lemma bitrate_request_status_not_carried :
  BitRateSet.status bitrate_request_example = Some MSG_SUCCESS
  /\ exists msg e',
       BitRateSet.getMessage bitrate_request_example = Ok msg
       /\ BitRateSet.decode msg = Ok e'
       /\ BitRateSet.status e' = None.
Proof.
  split; [reflexivity |].
  eexists. eexists. split; [reflexivity |]. split; reflexivity.
Qed.

(** ** Diagnostic formatting *)

(** C8, where the code departs from it: the Node Identification request
    decoded from the frame of address 1793 and payload [0x00, 0x05] is a
    fully populated entity, and [__str__] raises [AttributeError] on it:
    it reads [device], which a request does not have. *)
Theorem ident_str_of_request_raises :
  NodeIdentification.decode frame_ident_request = Ok ident_request_example
  /\ NodeIdentification_valid ident_request_example = true
  /\ NodeIdentification.__str__ ident_request_example = Raise AttributeError.
Proof.
  split; [reflexivity |]. split; reflexivity.
Qed.

(** On a fully populated response the same method returns. *)
Lemma ident_str_of_response (e : NodeIdentification.t) :
  NodeIdentification_valid e = true ->
  NodeIdentification.msgType e = Some MSG_RESPONSE ->
  exists s, NodeIdentification.__str__ e = Ok s.
Proof.
  intros Hv Hmt. open_entity e Hv; simpl in Hmt; try discriminate Hmt.
  match goal with
  | H : (?c =? 0) = true |- _ => apply Z.eqb_eq in H; subst c
  end.
  unfold NodeIdentification.__str__. run_method.
  eexists. reflexivity.
Qed.

(** The two sibling methods test the role first and return on every fully
    populated entity. *)
Lemma bitrate_str_total (e : BitRateSet.t) :
  BitRateSet_valid e = true -> exists s, BitRateSet.__str__ e = Ok s.
Proof.
  intros Hv. open_entity e Hv.
  all: match goal with
       | H : (?c =? 1) = true |- _ => apply Z.eqb_eq in H; subst c
       end.
  - unfold BitRateSet.__str__. run_method.
    match goal with
    | H : (1 <=? ?b) = true |- _ =>
        assert (Hb : b = 1 \/ b = 2 \/ b = 3 \/ b = 4) by lia;
        destruct Hb as [-> | [-> | [-> | ->]]]
    end; eexists; reflexivity.
  - unfold BitRateSet.__str__. run_method.
    match goal with
    | st : Status |- _ => destruct st
    end; eexists; reflexivity.
Qed.

Lemma idset_str_total (e : NodeIDSet.t) :
  NodeIDSet_valid e = true -> exists s, NodeIDSet.__str__ e = Ok s.
Proof.
  intros Hv. open_entity e Hv.
  all: match goal with
       | H : (?c =? 2) = true |- _ => apply Z.eqb_eq in H; subst c
       end.
  all: unfold NodeIDSet.__str__; run_method; eexists; reflexivity.
Qed.

(** The text of a decoded bit rate request. *)
Example bitrate_str_example :
  BitRateSet.__str__ bitrate_request_example
  = Ok "[1]->[5] Bit Rate Set: request bitrate=500kbps"%string.
Proof. reflexivity. Qed.

(** The generic envelope's text for a reserved control code. *)
Example envelope_str_example :
  rbind (NodeSpecific.decode (can.mkMessage 1795 false [50; 10; 255] 3))
        NodeSpecific.__str__
  = Ok "[3] Reserved NSM 50 0x0a 0xff"%string.
Proof. reflexivity. Qed.

(** The spec's scenario: the frame of address 1793 and payload [0x00, 0x05]
    decodes to a request from node 1 to node 5, and encoding it gives back
    address 1793, the same payload and length 2. *)
Example ident_scenario :
  NodeIdentification.decode frame_ident_request = Ok ident_request_example
  /\ NodeIdentification.getMessage ident_request_example
     = Ok (can.mkMessage 1793 false [0; 5] 2).
Proof. split; reflexivity. Qed.

(** The bit rate given in kbps and given as a code encode alike. *)
Example bitrate_synonyms (d : Z) :
  0 <= d <= 255 ->
  rbind (BitRateSet.new None (Some 500))
        (fun e => BitRateSet.getData (BitRateSet.set_destNode (PyInt d) e))
  = Ok [1; d; 3]
  /\ rbind (BitRateSet.new None (Some 3))
           (fun e => BitRateSet.getData (BitRateSet.set_destNode (PyInt d) e))
     = Ok [1; d; 3].
Proof.
  intros Hd.
  split; simpl; unfold BitRateSet.getData, bytearray_append, bytearray_append_int;
    run_method; settle_tests; reflexivity.
Qed.

(** * Further properties of the module *)

(** ** Subscripts, continued *)

Lemma py_index_ok_inv {A : Type} (l : list A) (i : Z) (a : A) :
  0 <= i -> py_index l i = Ok a -> nth_error l (Z.to_nat i) = Some a.
Proof.
  intros Hi. unfold py_index.
  destruct (Z.ltb_spec i 0) as [Hneg | _]; [lia |].
  destruct ((i <? 0) || (Z.of_nat (List.length l) <=? i)); [discriminate |].
  destruct (nth_error l (Z.to_nat i)); [| discriminate].
  intros H. inversion H. reflexivity.
Qed.

Lemma py_index_0_inv {A : Type} (l : list A) (a : A) :
  py_index l 0 = Ok a -> exists rest, l = a :: rest.
Proof.
  intros H. apply py_index_ok_inv in H; [| lia].
  destruct l as [| a' rest]; simpl in H; [discriminate |].
  inversion H. exists rest. reflexivity.
Qed.

Lemma py_index_nil {A : Type} (i : Z) : py_index (@nil A) i = Raise IndexError.
Proof.
  unfold py_index. simpl.
  destruct (Z.ltb_spec i 0); simpl.
  - destruct (Z.ltb_spec (i + 0) 0); [reflexivity | lia].
  - destruct (Z.ltb_spec i 0); [lia |].
    destruct (Z.leb_spec 0 i); [reflexivity | lia].
Qed.

(** A negative subscript no smaller than minus the length counts from the
    end. *)
Lemma py_index_from_end {A : Type} (l : list A) (i : Z) (a : A) :
  - Z.of_nat (List.length l) <= i < 0 ->
  nth_error l (Z.to_nat (i + Z.of_nat (List.length l))) = Some a ->
  py_index l i = Ok a.
Proof.
  intros Hi Hnth. unfold py_index.
  destruct (Z.ltb_spec i 0) as [_ | Hge]; [| lia].
  destruct (Z.ltb_spec (i + Z.of_nat (List.length l)) 0); [lia |].
  destruct (Z.leb_spec (Z.of_nat (List.length l)) (i + Z.of_nat (List.length l)));
    [lia |].
  simpl. rewrite Hnth. reflexivity.
Qed.

Lemma py_index_below {A : Type} (l : list A) (i : Z) :
  i < - Z.of_nat (List.length l) -> py_index l i = Raise IndexError.
Proof.
  intros Hi. unfold py_index.
  destruct (Z.ltb_spec i 0) as [_ | Hge]; [| lia].
  destruct (Z.ltb_spec (i + Z.of_nat (List.length l)) 0); [| lia].
  reflexivity.
Qed.

(** ** The generic envelope, continued *)

Lemma append_assoc (s1 s2 s3 : string) :
  ((s1 ++ s2) ++ s3 = s1 ++ (s2 ++ s3))%string.
Proof.
  induction s1 as [| c s1 IH]; simpl; [reflexivity | rewrite IH; reflexivity].
Qed.

Lemma append_empty_r (s : string) : (s ++ "")%string = s.
Proof.
  induction s as [| c s IH]; simpl; [reflexivity | rewrite IH; reflexivity].
Qed.

(** The loop of [__str__] appends the items of the payload, in order, to
    what was built before it. *)
Lemma str_loop_appends (payload : list Z) (s0 : string) :
  fold_left (fun s each => (s ++ " 0x" ++ format_02x each)%string) payload s0
  = (s0 ++ hex_items payload)%string.
Proof.
  revert s0. induction payload as [| b payload IH]; intros s0; simpl.
  - rewrite append_empty_r. reflexivity.
  - rewrite IH, append_assoc. reflexivity.
Qed.

(** The description is found for every integer, not only for a byte. *)
Lemma describe_returns (code : Z) : exists name, NodeSpecific.describe code = Ok name.
Proof.
  unfold NodeSpecific.describe.
  destruct (py_index NodeSpecific.codes code) as [name | e] eqn:Hidx.
  - exists name. reflexivity.
  - apply py_index_raises in Hidx. subst e. eexists. reflexivity.
Qed.

(** X1: decoding a well-formed frame with a non-empty payload into a generic
    envelope and encoding the envelope gives the frame back: the same
    address, payload and [dlc], as a standard (not extended) frame. *)
Theorem envelope_frame_roundtrip (a : Z) (x : bool) (b : Z) (rest : list Z) (n : Z) :
  can.wf (can.mkMessage a x (b :: rest) n) = true ->
  exists e, NodeSpecific.decode (can.mkMessage a x (b :: rest) n) = Ok e
    /\ NodeSpecific.getMessage e = Ok (can.mkMessage a false (b :: rest) n).
Proof. exact (envelope_encode_decode a x b rest n). Qed.

Lemma envelope_frame_roundtrip_witness :
  can.wf frame_envelope = true
  /\ exists e, NodeSpecific.decode frame_envelope = Ok e
       /\ NodeSpecific.getMessage e = Ok (can.mkMessage 1795 false [50; 10; 255] 3).
Proof.
  split; [reflexivity |].
  apply (envelope_frame_roundtrip 1795 true 50 [10; 255] 3). reflexivity.
Defined.

(** X2: a generic envelope whose [sendNode] is an int, whose control code is
    a byte and whose [data] are bytes encodes, and decoding the frame gives
    exactly that envelope. *)
Theorem envelope_entity_roundtrip (e : NodeSpecific.t) (sn c : Z) (d : list Z) :
  NodeSpecific.sendNode e = Some (PyInt sn) ->
  NodeSpecific.controlCode e = Some c ->
  NodeSpecific.data e = Some d ->
  0 <= c <= 255 ->
  forallb (fun b => (0 <=? b) && (b <? 256)) d = true ->
  exists msg, NodeSpecific.getMessage e = Ok msg
    /\ can.arbitration_id msg = sn + 1792
    /\ can.data msg = c :: d
    /\ NodeSpecific.decode msg = Ok e.
Proof.
  intros Hsn Hc Hd Hcr Hbytes. destruct e as [sn' c' d']. simpl in *. subst.
  unfold NodeSpecific.getMessage, bytearray_append_int. run_method.
  settle_tests. simpl.
  rewrite bytearray_extend_bytes by exact Hbytes. simpl.
  eexists. split; [reflexivity |]. simpl.
  split; [reflexivity |]. split; [reflexivity |].
  rewrite envelope_decode_cons. f_equal. f_equal. f_equal. f_equal. lia.
Qed.

Lemma envelope_entity_roundtrip_witness :
  0 <= 50 <= 255
  /\ exists msg, NodeSpecific.getMessage envelope_example = Ok msg
       /\ can.arbitration_id msg = 3 + 1792
       /\ can.data msg = 50 :: [10; 255]
       /\ NodeSpecific.decode msg = Ok envelope_example.
Proof.
  split; [lia |].
  apply (envelope_entity_roundtrip envelope_example 3 50 [10; 255]);
    try reflexivity; lia.
Defined.

(** X3: the control code description is found for every integer. Below 0
    the table is read from its end, as Python subscripts are: -1 is the last
    entry, -20 the first; below -20 the text is "Reserved NSM <code>";
    above 255 it is "User Defined NSM <code>". *)
Theorem describe_any_integer (code : Z) :
  exists name, NodeSpecific.describe code = Ok name
    /\ (-20 <= code <= -1 ->
        nth_error NodeSpecific.codes (Z.to_nat (code + 20)) = Some name)
    /\ (code < -20 -> name = ("Reserved NSM " ++ str_int code)%string)
    /\ (255 < code -> name = ("User Defined NSM " ++ str_int code)%string).
Proof.
  unfold NodeSpecific.describe.
  destruct (Z.lt_ge_cases code (-20)) as [Hbelow | Hge].
  - rewrite py_index_below by (simpl; lia).
    destruct (Z.ltb_spec code 128); [| lia].
    eexists. split; [reflexivity |].
    repeat split; intros; try lia; try reflexivity.
  - destruct (Z.lt_ge_cases code 0) as [Hneg | Hpos].
    + destruct (nth_error NodeSpecific.codes (Z.to_nat (code + 20))) as [name |] eqn:Hnth.
      * exists name. rewrite (py_index_from_end _ code name) by (simpl; try lia; exact Hnth).
        repeat split; intros; try lia; try reflexivity.
      * apply nth_error_None in Hnth. simpl in Hnth. lia.
    + destruct (Z.lt_ge_cases 255 code) as [Hbig | Hbyte].
      * rewrite py_index_beyond by (simpl; lia).
        destruct (Z.ltb_spec code 128); [lia |].
        eexists. split; [reflexivity |].
        repeat split; intros; try lia; try reflexivity.
      * destruct (describe_returns code) as [name Hname].
        unfold NodeSpecific.describe in Hname. rewrite Hname.
        exists name. repeat split; intros; try lia; try reflexivity.
Qed.

Lemma describe_any_integer_witness :
  (-20 <= -1 <= -1 /\ NodeSpecific.describe (-1) = Ok "Parameter Set 224"%string)
  /\ (-21 < -20 /\ NodeSpecific.describe (-21) = Ok "Reserved NSM -21"%string)
  /\ (255 < 300 /\ NodeSpecific.describe 300 = Ok "User Defined NSM 300"%string).
Proof.
  split; [| split]; (split; [lia |]).
  - destruct (describe_any_integer (-1)) as (name & Hd & Hend & _ & _).
    rewrite Hd. f_equal.
    specialize (Hend ltac:(lia)). simpl in Hend. congruence.
  - destruct (describe_any_integer (-21)) as (name & Hd & _ & Hlow & _).
    rewrite Hd. f_equal. apply Hlow. lia.
  - destruct (describe_any_integer 300) as (name & Hd & _ & _ & Hhigh).
    rewrite Hd. f_equal. apply Hhigh. lia.
Defined.

(** X4: on the envelope decoded from any frame with a non-empty payload,
    [NodeSpecific.__str__] returns: the text is "[<sendNode>] ", the
    description of the control code, and one " 0x.." item per byte after
    the control code. *)
Theorem envelope_str_of_decoded (msg : can.Message) (b : Z) (rest : list Z) :
  can.data msg = b :: rest ->
  exists e name,
    NodeSpecific.decode msg = Ok e
    /\ NodeSpecific.describe b = Ok name
    /\ NodeSpecific.__str__ e =
         Ok ("[" ++ str_int (can.arbitration_id msg - 1792) ++ "] "
             ++ name ++ hex_items rest)%string.
Proof.
  intros Hdata. destruct msg as [a x payload n]. simpl in Hdata. subst payload.
  destruct (describe_returns b) as [name Hname].
  eexists. exists name.
  split; [apply envelope_decode_cons |]. split; [exact Hname |].
  unfold NodeSpecific.__str__. run_method. rewrite Hname. simpl.
  rewrite str_loop_appends. f_equal.
  simpl. f_equal. rewrite append_assoc. reflexivity.
Qed.

Lemma envelope_str_of_decoded_witness :
  can.data frame_envelope = 50 :: [10; 255]
  /\ exists e name,
       NodeSpecific.decode frame_envelope = Ok e
       /\ NodeSpecific.describe 50 = Ok name
       /\ NodeSpecific.__str__ e =
            Ok ("[" ++ str_int (1795 - 1792) ++ "] " ++ name
                ++ hex_items [10; 255])%string.
Proof.
  split; [reflexivity |].
  apply (envelope_str_of_decoded frame_envelope 50 [10; 255]). reflexivity.
Defined.

(** ** Decoding: short payloads and objects decoded into *)

(** X5: a frame with an empty payload is refused by all four decoders with
    [IndexError], whatever its address and [dlc]; an object decoded into has
    by then a new [sendNode] and is otherwise as before. *)
Theorem decode_empty_payload (msg : can.Message) :
  can.data msg = [] ->
  (forall s, NodeSpecific.setMessage msg s =
     (NodeSpecific.set_sendNode (PyInt (can.arbitration_id msg - 1792)) s,
      Raise IndexError))
  /\ (forall s, NodeIdentification.setMessage msg s =
        (NodeIdentification.set_sendNode (PyInt (can.arbitration_id msg - 1792)) s,
         Raise IndexError))
  /\ (forall s, BitRateSet.setMessage msg s =
        (BitRateSet.set_sendNode (PyInt (can.arbitration_id msg - 1792)) s,
         Raise IndexError))
  /\ (forall s, NodeIDSet.setMessage msg s =
        (NodeIDSet.set_sendNode (PyInt (can.arbitration_id msg - 1792)) s,
         Raise IndexError)).
Proof.
  intros Hdata.
  split; [| split; [| split]]; intros s.
  - unfold NodeSpecific.setMessage. run_method. rewrite Hdata, py_index_nil. reflexivity.
  - unfold NodeIdentification.setMessage. run_method.
    rewrite Hdata, py_index_nil. reflexivity.
  - unfold BitRateSet.setMessage. run_method. rewrite Hdata, py_index_nil. reflexivity.
  - unfold NodeIDSet.setMessage. run_method. rewrite Hdata, py_index_nil. reflexivity.
Qed.

Lemma decode_empty_payload_witness :
  can.data frame_empty = []
  /\ NodeIDSet.setMessage frame_empty (NodeIDSet.mk None (Some 2) None (Some MSG_RESPONSE) None)
     = (NodeIDSet.mk (Some (PyInt 1)) (Some 2) None (Some MSG_RESPONSE) None,
        Raise IndexError).
Proof.
  split; [reflexivity |].
  destruct (decode_empty_payload frame_empty eq_refl) as (_ & _ & _ & Hidset).
  apply (Hidset (NodeIDSet.mk None (Some 2) None (Some MSG_RESPONSE) None)).
Defined.

(** ** Encoding: the frames the variants produce *)

(** What a read-only method that returned has read and tested on the
    way. *)
Lemma rbind_ok_inv {A B : Type} (r : result A) (k : A -> result B) (b : B) :
  rbind r k = Ok b -> exists a, r = Ok a /\ k a = Ok b.
Proof.
  destruct r as [a | e]; simpl; [| discriminate].
  intros H. exists a. split; [reflexivity | exact H].
Qed.

Lemma attr_ok_inv {A : Type} (o : option A) (v : A) : attr o = Ok v -> o = Some v.
Proof. destruct o; simpl; intros H; inversion H; reflexivity. Qed.

Lemma py_add_int_ok_inv (v : pyval) (k r : Z) :
  py_add_int v k = Ok r -> v = PyInt (r - k).
Proof.
  destruct v; simpl; intros H; inversion H. f_equal. lia.
Qed.

Lemma append_int_ok_inv (l l' : list Z) (z : Z) :
  bytearray_append_int l z = Ok l' ->
  l' = l ++ [z] /\ (0 <=? z) && (z <? 256) = true.
Proof.
  unfold bytearray_append_int.
  destruct ((0 <=? z) && (z <? 256)); intros H; inversion H. split; reflexivity.
Qed.

Lemma append_ok_inv (l l' : list Z) (v : pyval) :
  bytearray_append l v = Ok l' ->
  exists z, v = PyInt z /\ l' = l ++ [z] /\ (0 <=? z) && (z <? 256) = true.
Proof.
  destruct v as [| z]; simpl; [discriminate |].
  intros H. apply append_int_ok_inv in H. exists z. tauto.
Qed.

Lemma extend_ok_inv (items l l' : list Z) :
  bytearray_extend l items = Ok l' ->
  l' = l ++ items /\ forallb (fun b => (0 <=? b) && (b <? 256)) items = true.
Proof.
  revert l. induction items as [| y items IH]; intros l.
  - unfold bytearray_extend. simpl. intros H. inversion H.
    rewrite app_nil_r. split; reflexivity.
  - unfold bytearray_extend. simpl. unfold bytearray_append_int at 2.
    destruct ((0 <=? y) && (y <? 256)) eqn:Hy.
    + intros H. apply IH in H. destruct H as [-> Hrest].
      rewrite <- app_assoc. split; [reflexivity | exact Hrest].
    + assert (Hstuck : forall l0,
                 fold_left (fun acc each =>
                              rbind acc (fun acc' => bytearray_append_int acc' each))
                           l0 (Raise ValueError) = Raise ValueError).
      { induction l0; simpl; [reflexivity | assumption]. }
      rewrite Hstuck. discriminate.
Qed.

Ltac read_back :=
  repeat match goal with
         | H : rbind _ _ = Ok _ |- _ =>
             apply rbind_ok_inv in H; destruct H as (? & ? & H); cbv beta in H
         | H : attr _ = Ok _ |- _ => apply attr_ok_inv in H
         | H : py_add_int _ _ = Ok _ |- _ => apply py_add_int_ok_inv in H
         | H : bytearray_append_int _ _ = Ok _ |- _ =>
             apply append_int_ok_inv in H; destruct H as [? ?]
         | H : bytearray_append _ _ = Ok _ |- _ =>
             apply append_ok_inv in H; destruct H as (? & ? & ? & ?)
         | H : bytearray_extend _ _ = Ok _ |- _ =>
             apply extend_ok_inv in H; destruct H as [? ?]
         | H : (if MsgType_eqb ?m _ then _ else _) = Ok _ |- _ =>
             destruct m; simpl in H
         | H : (if Status_eqb ?m _ then _ else _) = Ok _ |- _ =>
             destruct m; simpl in H
         | H : Ok _ = Ok _ |- _ => inversion H; clear H
         | H : Raise _ = Ok _ |- _ => discriminate H
         | H : (if ?b then _ else _) = Ok _ |- _ => destruct b eqn:?
         end.

Ltac frame_facts :=
  subst; simpl in *;
  repeat match goal with
         | H : _ && _ = true |- _ => apply andb_prop in H; destruct H
         end;
  (split; [unfold can.wf; simpl;
           repeat (apply andb_true_intro; split);
           try first [assumption | reflexivity] |]);
  (split; [reflexivity |]);
  (split; [assumption |]);
  (split; [first [left; reflexivity | right; reflexivity | reflexivity] |]);
  do 3 eexists; repeat split; eassumption.

Lemma ident_frame_wf (e : NodeIdentification.t) (msg : can.Message) :
  NodeIdentification.getMessage e = Ok msg ->
  can.wf msg = true
  /\ can.extended_id msg = false
  /\ NodeIdentification.sendNode e = Some (PyInt (can.arbitration_id msg - 1792))
  /\ (can.dlc msg = 2 \/ can.dlc msg = 8)
  /\ exists c d rest,
       NodeIdentification.controlCode e = Some c
       /\ NodeIdentification.destNode e = Some (PyInt d)
       /\ can.data msg = c :: d :: rest.
Proof.
  unfold NodeIdentification.getMessage, NodeIdentification.getData.
  intros H. read_back. all: frame_facts.
Qed.

Lemma bitrate_frame_wf (e : BitRateSet.t) (msg : can.Message) :
  BitRateSet.getMessage e = Ok msg ->
  can.wf msg = true
  /\ can.extended_id msg = false
  /\ BitRateSet.sendNode e = Some (PyInt (can.arbitration_id msg - 1792))
  /\ (can.dlc msg = 2 \/ can.dlc msg = 3)
  /\ exists c d rest,
       BitRateSet.controlCode e = Some c
       /\ BitRateSet.destNode e = Some (PyInt d)
       /\ can.data msg = c :: d :: rest.
Proof.
  unfold BitRateSet.getMessage, BitRateSet.getData.
  intros H. read_back. all: frame_facts.
Qed.

Lemma idset_frame_wf (e : NodeIDSet.t) (msg : can.Message) :
  NodeIDSet.getMessage e = Ok msg ->
  can.wf msg = true
  /\ can.extended_id msg = false
  /\ NodeIDSet.sendNode e = Some (PyInt (can.arbitration_id msg - 1792))
  /\ can.dlc msg = 3
  /\ exists c d rest,
       NodeIDSet.controlCode e = Some c
       /\ NodeIDSet.destNode e = Some (PyInt d)
       /\ can.data msg = c :: d :: rest.
Proof.
  unfold NodeIDSet.getMessage, NodeIDSet.getData.
  intros H. read_back. all: try congruence. all: frame_facts.
Qed.

(** X6: whatever the object holds, a frame a variant's [getMessage] returns
    is well formed: a standard frame whose payload items are bytes and whose
    [dlc] is their count, 2 or 8 for Node Identification, 2 or 3 for Bit
    Rate Set, 3 for Node ID Set; its address is [sendNode + 1792] and its
    first two bytes are [controlCode] and [destNode]. *)
Theorem encoded_frame_well_formed :
  (forall e msg,
      NodeIdentification.getMessage e = Ok msg ->
      can.wf msg = true
      /\ can.extended_id msg = false
      /\ NodeIdentification.sendNode e = Some (PyInt (can.arbitration_id msg - 1792))
      /\ (can.dlc msg = 2 \/ can.dlc msg = 8)
      /\ exists c d rest,
           NodeIdentification.controlCode e = Some c
           /\ NodeIdentification.destNode e = Some (PyInt d)
           /\ can.data msg = c :: d :: rest)
  /\ (forall e msg,
         BitRateSet.getMessage e = Ok msg ->
         can.wf msg = true
         /\ can.extended_id msg = false
         /\ BitRateSet.sendNode e = Some (PyInt (can.arbitration_id msg - 1792))
         /\ (can.dlc msg = 2 \/ can.dlc msg = 3)
         /\ exists c d rest,
              BitRateSet.controlCode e = Some c
              /\ BitRateSet.destNode e = Some (PyInt d)
              /\ can.data msg = c :: d :: rest)
  /\ (forall e msg,
         NodeIDSet.getMessage e = Ok msg ->
         can.wf msg = true
         /\ can.extended_id msg = false
         /\ NodeIDSet.sendNode e = Some (PyInt (can.arbitration_id msg - 1792))
         /\ can.dlc msg = 3
         /\ exists c d rest,
              NodeIDSet.controlCode e = Some c
              /\ NodeIDSet.destNode e = Some (PyInt d)
              /\ can.data msg = c :: d :: rest).
Proof.
  split; [exact ident_frame_wf |].
  split; [exact bitrate_frame_wf | exact idset_frame_wf].
Qed.

Lemma encoded_frame_well_formed_witness :
  NodeIdentification.getMessage ident_response_example
    = Ok (can.mkMessage 1793 false [0; 5; 1; 7; 3; 0x56; 0x34; 0x12] 8)
  /\ can.wf (can.mkMessage 1793 false [0; 5; 1; 7; 3; 0x56; 0x34; 0x12] 8) = true.
Proof.
  split; [reflexivity |].
  destruct encoded_frame_well_formed as (Hident & _ & _).
  apply (Hident ident_response_example). reflexivity.
Defined.

(** ** Decoding: which frames which variant accepts *)

Lemma wrong_code_refused (msg : can.Message) (b : Z) (rest : list Z) :
  can.data msg = b :: rest ->
  (b <> 0 -> NodeIdentification.decode msg = Raise AssertionError)
  /\ (b <> 1 -> BitRateSet.decode msg = Raise AssertionError)
  /\ (b <> 2 -> NodeIDSet.decode msg = Raise AssertionError).
Proof.
  intros Hdata. split; [| split]; intros Hb; run_decode;
    rewrite Hdata, py_index_0; simpl.
  - destruct (Z.eqb_spec b 0); [contradiction | reflexivity].
  - destruct (Z.eqb_spec b 1); [contradiction | reflexivity].
  - destruct (Z.eqb_spec b 2); [contradiction | reflexivity].
Qed.

Lemma empty_refused (msg : can.Message) :
  can.data msg = [] ->
  NodeIdentification.decode msg = Raise IndexError
  /\ BitRateSet.decode msg = Raise IndexError
  /\ NodeIDSet.decode msg = Raise IndexError.
Proof.
  intros Hdata. split; [| split]; run_decode; rewrite Hdata, py_index_nil; reflexivity.
Qed.

(** A frame a variant decodes starts with that variant's control code. *)
Lemma accepted_code (msg : can.Message) :
  (forall e, NodeIdentification.decode msg = Ok e ->
             exists rest, can.data msg = 0 :: rest)
  /\ (forall e, BitRateSet.decode msg = Ok e -> exists rest, can.data msg = 1 :: rest)
  /\ (forall e, NodeIDSet.decode msg = Ok e -> exists rest, can.data msg = 2 :: rest).
Proof.
  destruct (can.data msg) as [| b rest] eqn:Hdata.
  - destruct (empty_refused msg Hdata) as (H0 & H1 & H2).
    rewrite H0, H1, H2. repeat split; intros e He; discriminate He.
  - destruct (wrong_code_refused msg b rest Hdata) as (H0 & H1 & H2).
    split; [| split]; intros e He.
    + destruct (Z.eq_dec b 0) as [-> | Hb]; [exists rest; reflexivity |].
      rewrite (H0 Hb) in He. discriminate He.
    + destruct (Z.eq_dec b 1) as [-> | Hb]; [exists rest; reflexivity |].
      rewrite (H1 Hb) in He. discriminate He.
    + destruct (Z.eq_dec b 2) as [-> | Hb]; [exists rest; reflexivity |].
      rewrite (H2 Hb) in He. discriminate He.
Qed.

(** X7: the three variant decoders accept disjoint sets of frames: a frame
    one of them decodes is refused by the other two at the control code
    assertion. *)
Theorem decoders_exclusive (msg : can.Message) :
  (forall e, NodeIdentification.decode msg = Ok e ->
             BitRateSet.decode msg = Raise AssertionError
             /\ NodeIDSet.decode msg = Raise AssertionError)
  /\ (forall e, BitRateSet.decode msg = Ok e ->
                NodeIdentification.decode msg = Raise AssertionError
                /\ NodeIDSet.decode msg = Raise AssertionError)
  /\ (forall e, NodeIDSet.decode msg = Ok e ->
                NodeIdentification.decode msg = Raise AssertionError
                /\ BitRateSet.decode msg = Raise AssertionError).
Proof.
  destruct (accepted_code msg) as (A0 & A1 & A2).
  split; [| split]; intros e He.
  - destruct (A0 e He) as [rest Hdata].
    destruct (wrong_code_refused msg 0 rest Hdata) as (_ & H1 & H2).
    split; [apply H1 | apply H2]; lia.
  - destruct (A1 e He) as [rest Hdata].
    destruct (wrong_code_refused msg 1 rest Hdata) as (H0 & _ & H2).
    split; [apply H0 | apply H2]; lia.
  - destruct (A2 e He) as [rest Hdata].
    destruct (wrong_code_refused msg 2 rest Hdata) as (H0 & H1 & _).
    split; [apply H0 | apply H1]; lia.
Qed.

Lemma decoders_exclusive_witness :
  NodeIdentification.decode frame_ident_request = Ok ident_request_example
  /\ BitRateSet.decode frame_ident_request = Raise AssertionError
  /\ NodeIDSet.decode frame_ident_request = Raise AssertionError.
Proof.
  split; [reflexivity |].
  destruct (decoders_exclusive frame_ident_request) as (Hident & _ & _).
  apply (Hident ident_request_example). reflexivity.
Defined.

(** ** Decoding: what an accepted frame gives *)

(** A well-formed frame is one of nine payload shapes, its [dlc] the
    length. *)
Ltac list_shapes payload k :=
  lazymatch k with
  | O => idtac
  | S ?k' => destruct payload as [| ? payload]; [| list_shapes payload k']
  end.

Ltac frame_shapes msg Hwf :=
  let a := fresh "a" in
  let x := fresh "x" in
  let payload := fresh "payload" in
  let n := fresh "n" in
  let Hmax := fresh "Hmax" in
  let Hbytes := fresh "Hbytes" in
  let Hlen := fresh "Hlen" in
  destruct msg as [a x payload n];
  unfold can.wf in Hwf; simpl in Hwf;
  apply andb_prop in Hwf; destruct Hwf as [Hwf Hmax];
  apply andb_prop in Hwf; destruct Hwf as [Hbytes Hlen];
  apply Z.eqb_eq in Hlen; apply Z.leb_le in Hmax;
  list_shapes payload 9%nat;
  first [ cbn [List.length] in Hlen; lia
        | simpl in Hlen; subst n; simpl in Hbytes;
          repeat match goal with
                 | H : _ && _ = true |- _ => apply andb_prop in H; destruct H
                 end ].

Ltac valid_goal :=
  let He := fresh "He" in
  intros He; inversion He; subst; clear He;
  unfold NodeIdentification_valid, BitRateSet_valid, NodeIDSet_valid,
    node_ok, in_range, code_is, is_byte;
  simpl;
  repeat (apply andb_true_intro; split); first [reflexivity | lia].

Lemma ident_decode_valid (msg : can.Message) (e : NodeIdentification.t) :
  can.wf msg = true ->
  0 <= can.arbitration_id msg - 1792 <= 255 ->
  NodeIdentification.decode msg = Ok e ->
  NodeIdentification_valid e = true.
Proof.
  intros Hwf Haddr. frame_shapes msg Hwf; simpl in Haddr.
  all: run_decode; unfold py_index; simpl.
  all: try discriminate.
  all: repeat match goal with
              | |- context [?p =? ?q] => destruct (Z.eqb_spec p q); simpl
              end; try discriminate.
  - valid_goal.
  - unfold NodeIdentification.setDevice, NodeIdentification.setFwrev,
      NodeIdentification.setModel.
    match goal with
    | |- context [?p + Z.shiftl ?q 8 + Z.shiftl ?r 16] =>
        pose proof (model_sum_range p q r ltac:(lia) ltac:(lia) ltac:(lia)) as Hm;
        set (m := p + Z.shiftl q 8 + Z.shiftl r 16) in *
    end.
    settle_tests. simpl. valid_goal.
Qed.

Lemma bitrate_decode_valid (msg : can.Message) (e : BitRateSet.t) :
  can.wf msg = true ->
  0 <= can.arbitration_id msg - 1792 <= 255 ->
  BitRateSet.decode msg = Ok e ->
  BitRateSet_valid e = true.
Proof.
  intros Hwf Haddr. frame_shapes msg Hwf; simpl in Haddr.
  all: run_decode; unfold py_index; simpl.
  all: try discriminate.
  all: repeat match goal with
              | |- context [?p =? ?q] => destruct (Z.eqb_spec p q); simpl
              end; try discriminate.
  - valid_goal.
  - valid_goal.
  - unfold BitRateSet.setBitRate. run_method.
    match goal with
    | |- context [(?b >=? 1) && (?b <=? 4)] =>
        destruct (Z.geb_spec b 1); destruct (Z.leb_spec b 4); simpl;
        try valid_goal;
        destruct (BitRateSet.dict_get BitRateSet.bitrates b) as [code |] eqn:Hget;
        simpl; try discriminate;
        pose proof (dict_get_code b code Hget); valid_goal
    end.
Qed.

Lemma idset_decode_valid (msg : can.Message) (e : NodeIDSet.t) :
  can.wf msg = true ->
  0 <= can.arbitration_id msg - 1792 <= 255 ->
  NodeIDSet.decode msg = Ok e ->
  NodeIDSet_valid e = true.
Proof.
  intros Hwf Haddr. frame_shapes msg Hwf; simpl in Haddr.
  all: run_decode; unfold py_index; simpl.
  all: try discriminate.
  all: repeat match goal with
              | |- context [?p =? ?q] => destruct (Z.eqb_spec p q); simpl
              end; try discriminate.
  - valid_goal.
  - unfold NodeIDSet.setNewNode. run_method. settle_tests. simpl. valid_goal.
Qed.

(** X8: an entity a variant decodes from a well-formed frame whose address
    is in the node specific range 1792..2047 is fully populated: both
    addresses in 0..255, the variant's control code, and the fields of its
    role in their domains. *)
Theorem decoded_entity_valid (msg : can.Message) :
  can.wf msg = true ->
  0 <= can.arbitration_id msg - 1792 <= 255 ->
  (forall e, NodeIdentification.decode msg = Ok e -> NodeIdentification_valid e = true)
  /\ (forall e, BitRateSet.decode msg = Ok e -> BitRateSet_valid e = true)
  /\ (forall e, NodeIDSet.decode msg = Ok e -> NodeIDSet_valid e = true).
Proof.
  intros Hwf Haddr. split; [| split]; intros e He.
  - exact (ident_decode_valid msg e Hwf Haddr He).
  - exact (bitrate_decode_valid msg e Hwf Haddr He).
  - exact (idset_decode_valid msg e Hwf Haddr He).
Qed.

Lemma decoded_entity_valid_witness :
  can.wf frame_ident_request = true
  /\ 0 <= can.arbitration_id frame_ident_request - 1792 <= 255
  /\ NodeIdentification.decode frame_ident_request = Ok ident_request_example
  /\ NodeIdentification_valid ident_request_example = true.
Proof.
  split; [reflexivity |]. split; [simpl; lia |]. split; [reflexivity |].
  destruct (decoded_entity_valid frame_ident_request eq_refl ltac:(simpl; lia))
    as (Hident & _ & _).
  apply Hident. reflexivity.
Defined.

(** ** From a frame to an entity and back *)

(** The encoder's three bytes of the number the decoder made of three
    bytes. *)
Lemma model_split (b5 b6 b7 : Z) :
  0 <= b5 <= 255 -> 0 <= b6 <= 255 -> 0 <= b7 <= 255 ->
  let m := b5 + Z.shiftl b6 8 + Z.shiftl b7 16 in
  Z.land m 0x0000FF = b5
  /\ Z.shiftr (Z.land m 0x00FF00) 8 = b6
  /\ Z.shiftr (Z.land m 0xFF0000) 16 = b7.
Proof.
  intros H5 H6 H7 m.
  destruct (model_bytes m) as (E1 & E2 & E3). rewrite E1, E2, E3.
  assert (Hm : m = b5 + 256 * b6 + 65536 * b7).
  { unfold m. rewrite !Z.shiftl_mul_pow2 by lia.
    change (2 ^ 8) with 256. change (2 ^ 16) with 65536. lia. }
  rewrite Hm. clear E1 E2 E3 Hm m.
  split; [| split].
  - symmetry. apply (Z.mod_unique_pos _ 256 (b6 + 256 * b7)); lia.
  - assert (Hq : (b5 + 256 * b6 + 65536 * b7) / 256 = b6 + 256 * b7).
    { symmetry. apply (Z.div_unique_pos _ 256 _ b5); lia. }
    rewrite Hq. symmetry. apply (Z.mod_unique_pos _ 256 b7); lia.
  - assert (Hq : (b5 + 256 * b6 + 65536 * b7) / 65536 = b7).
    { symmetry. apply (Z.div_unique_pos _ 65536 _ (b5 + 256 * b6)); lia. }
    rewrite Hq. apply Z.mod_small. lia.
Qed.

(** X9: a well-formed Node Identification frame of length 2 decodes to an
    entity that encodes to the same payload; one of length 8 decodes to an
    entity that encodes to the same payload except for the third byte, the
    specification revision, which decode does not read and encode writes
    as 0x01. *)
Theorem ident_frame_roundtrip (a : Z) (x : bool) (d : Z) :
  (can.wf (can.mkMessage a x [0; d] 2) = true ->
   exists e, NodeIdentification.decode (can.mkMessage a x [0; d] 2) = Ok e
     /\ NodeIdentification.getMessage e = Ok (can.mkMessage a false [0; d] 2))
  /\ (forall b2 b3 b4 b5 b6 b7,
         can.wf (can.mkMessage a x [0; d; b2; b3; b4; b5; b6; b7] 8) = true ->
         exists e,
           NodeIdentification.decode
             (can.mkMessage a x [0; d; b2; b3; b4; b5; b6; b7] 8) = Ok e
           /\ NodeIdentification.getMessage e =
                Ok (can.mkMessage a false [0; d; 0x01; b3; b4; b5; b6; b7] 8)).
Proof.
  split.
  - intros Hwf. unfold can.wf in Hwf. simpl in Hwf.
    repeat match goal with
           | H : _ && _ = true |- _ => apply andb_prop in H; destruct H
           end.
    eexists. split; [reflexivity |].
    unfold NodeIdentification.getMessage, NodeIdentification.getData,
      bytearray_append, bytearray_append_int.
    run_method. settle_tests. simpl. f_equal. f_equal. lia.
  - intros b2 b3 b4 b5 b6 b7 Hwf.
    rewrite (ident_decode_response a x d b2 b3 b4 b5 b6 b7 Hwf).
    unfold can.wf in Hwf. simpl in Hwf.
    repeat match goal with
           | H : _ && _ = true |- _ => apply andb_prop in H; destruct H
           end.
    eexists. split; [reflexivity |].
    rewrite <- (model_sum_is_or b5 b6 b7) by lia.
    destruct (model_split b5 b6 b7) as (E1 & E2 & E3); try lia.
    unfold NodeIdentification.getMessage, NodeIdentification.getData,
      bytearray_append, bytearray_extend, bytearray_append_int.
    run_method. rewrite E1, E2, E3. settle_tests. simpl.
    f_equal. f_equal. lia.
Qed.

Lemma ident_frame_roundtrip_witness :
  can.wf (can.mkMessage 1793 true [0; 5; 9; 7; 3; 0x56; 0x34; 0x12] 8) = true
  /\ exists e,
       NodeIdentification.decode
         (can.mkMessage 1793 true [0; 5; 9; 7; 3; 0x56; 0x34; 0x12] 8) = Ok e
       /\ NodeIdentification.getMessage e =
            Ok (can.mkMessage 1793 false [0; 5; 0x01; 7; 3; 0x56; 0x34; 0x12] 8).
Proof.
  split; [reflexivity |].
  destruct (ident_frame_roundtrip 1793 true 5) as (_ & Hresp).
  apply (Hresp 9 7 3 0x56 0x34 0x12). reflexivity.
Defined.

(** X10: a Bit Rate Set frame of length 2, or of length 3 with third byte
    0xFF or a code 1..4, decodes to an entity that encodes to the same
    payload. The two kbps values that fit a byte do not come back: a third
    byte 125 is encoded again as 1, and 250 as 2. *)
Theorem bitrate_frame_roundtrip (a : Z) (x : bool) (d : Z) :
  0 <= d <= 255 ->
  (exists e, BitRateSet.decode (can.mkMessage a x [1; d] 2) = Ok e
     /\ BitRateSet.getMessage e = Ok (can.mkMessage a false [1; d] 2))
  /\ (exists e, BitRateSet.decode (can.mkMessage a x [1; d; 0xFF] 3) = Ok e
        /\ BitRateSet.getMessage e = Ok (can.mkMessage a false [1; d; 0xFF] 3))
  /\ (forall b, 1 <= b <= 4 ->
        exists e, BitRateSet.decode (can.mkMessage a x [1; d; b] 3) = Ok e
          /\ BitRateSet.getMessage e = Ok (can.mkMessage a false [1; d; b] 3))
  /\ (exists e, BitRateSet.decode (can.mkMessage a x [1; d; 125] 3) = Ok e
        /\ BitRateSet.getMessage e = Ok (can.mkMessage a false [1; d; 1] 3))
  /\ (exists e, BitRateSet.decode (can.mkMessage a x [1; d; 250] 3) = Ok e
        /\ BitRateSet.getMessage e = Ok (can.mkMessage a false [1; d; 2] 3)).
Proof.
  intros Hd.
  assert (Hencode : forall mt st br payload,
             BitRateSet.getData
               (BitRateSet.mk (Some (PyInt (a - 1792))) (Some 1) (Some (PyInt d)) mt st br)
             = Ok payload ->
             BitRateSet.getMessage
               (BitRateSet.mk (Some (PyInt (a - 1792))) (Some 1) (Some (PyInt d)) mt st br)
             = Ok (can.mkMessage a false payload (Z.of_nat (List.length payload)))).
  { intros mt st br payload Hp. unfold BitRateSet.getMessage. simpl.
    rewrite Hp. simpl. f_equal. f_equal. lia. }
  assert (Hdata : forall mt st br tail,
             (mt = Some MSG_RESPONSE /\ st = Some MSG_SUCCESS /\ tail = []
              \/ mt = Some MSG_RESPONSE /\ st = Some MSG_FAIL /\ tail = [0xFF]
              \/ exists b, mt = Some MSG_REQUEST /\ br = Some b /\ tail = [b]
                           /\ 1 <= b <= 4) ->
             BitRateSet.getData
               (BitRateSet.mk (Some (PyInt (a - 1792))) (Some 1) (Some (PyInt d)) mt st br)
             = Ok (1 :: d :: tail)).
  { intros mt st br tail Hcase.
    unfold BitRateSet.getData, bytearray_append, bytearray_append_int.
    destruct Hcase as [(-> & -> & ->) | [(-> & -> & ->) | (b & -> & -> & -> & Hb)]];
      run_method; settle_tests; reflexivity. }
  split; [| split; [| split; [| split]]].
  - exists (BitRateSet.mk (Some (PyInt (a - 1792))) (Some 1) (Some (PyInt d))
              (Some MSG_RESPONSE) (Some MSG_SUCCESS) None).
    split; [reflexivity |].
    rewrite (Hencode _ _ _ [1; d]); [reflexivity |]. apply Hdata. tauto.
  - exists (BitRateSet.mk (Some (PyInt (a - 1792))) (Some 1) (Some (PyInt d))
              (Some MSG_RESPONSE) (Some MSG_FAIL) None).
    split; [reflexivity |].
    rewrite (Hencode _ _ _ [1; d; 0xFF]); [reflexivity |]. apply Hdata. tauto.
  - intros b Hb.
    exists (BitRateSet.mk (Some (PyInt (a - 1792))) (Some 1) (Some (PyInt d))
              (Some MSG_REQUEST) None (Some b)).
    split.
    + run_decode. unfold py_index. simpl.
      destruct (Z.eqb_spec b 255); [lia |]. simpl.
      unfold BitRateSet.setBitRate. run_method. settle_tests. reflexivity.
    + rewrite (Hencode _ _ _ [1; d; b]); [reflexivity |]. apply Hdata.
      right. right. exists b. tauto.
  - exists (BitRateSet.mk (Some (PyInt (a - 1792))) (Some 1) (Some (PyInt d))
              (Some MSG_REQUEST) None (Some 1)).
    split; [reflexivity |].
    rewrite (Hencode _ _ _ [1; d; 1]); [reflexivity |]. apply Hdata.
    right. right. exists 1. repeat split; lia.
  - exists (BitRateSet.mk (Some (PyInt (a - 1792))) (Some 1) (Some (PyInt d))
              (Some MSG_REQUEST) None (Some 2)).
    split; [reflexivity |].
    rewrite (Hencode _ _ _ [1; d; 2]); [reflexivity |]. apply Hdata.
    right. right. exists 2. repeat split; lia.
Qed.

Lemma bitrate_frame_roundtrip_witness :
  0 <= 5 <= 255
  /\ exists e, BitRateSet.decode (can.mkMessage 1793 true [1; 5; 125] 3) = Ok e
       /\ BitRateSet.getMessage e = Ok (can.mkMessage 1793 false [1; 5; 1] 3).
Proof.
  split; [lia |].
  destruct (bitrate_frame_roundtrip 1793 true 5 ltac:(lia)) as (_ & _ & _ & Hkbps & _).
  exact Hkbps.
Defined.

(** X11: every well-formed Node ID Set frame of length 3 decodes to an
    entity that encodes to the same address, payload and [dlc]. *)
Theorem idset_frame_roundtrip (a : Z) (x : bool) (d b : Z) :
  can.wf (can.mkMessage a x [2; d; b] 3) = true ->
  exists e, NodeIDSet.decode (can.mkMessage a x [2; d; b] 3) = Ok e
    /\ NodeIDSet.getMessage e = Ok (can.mkMessage a false [2; d; b] 3).
Proof.
  intros Hwf. unfold can.wf in Hwf. simpl in Hwf.
  repeat match goal with
         | H : _ && _ = true |- _ => apply andb_prop in H; destruct H
         end.
  destruct (Z.eq_dec b 0) as [-> | Hb].
  - eexists. split; [reflexivity |].
    unfold NodeIDSet.getMessage, NodeIDSet.getData, bytearray_append,
      bytearray_append_int.
    run_method. settle_tests. simpl. f_equal. f_equal. lia.
  - exists (NodeIDSet.mk (Some (PyInt (a - 1792))) (Some 2) (Some (PyInt d))
              (Some MSG_REQUEST) (Some b)).
    split.
    + run_decode. unfold py_index. simpl.
      destruct (Z.eqb_spec b 0); [contradiction |]. simpl.
      unfold NodeIDSet.setNewNode. run_method. settle_tests. reflexivity.
    + unfold NodeIDSet.getMessage, NodeIDSet.getData, bytearray_append,
        bytearray_append_int.
      run_method. settle_tests. simpl. f_equal. f_equal. lia.
Qed.

Lemma idset_frame_roundtrip_witness :
  can.wf (can.mkMessage 1800 true [2; 5; 77] 3) = true
  /\ exists e, NodeIDSet.decode (can.mkMessage 1800 true [2; 5; 77] 3) = Ok e
       /\ NodeIDSet.getMessage e = Ok (can.mkMessage 1800 false [2; 5; 77] 3).
Proof.
  split; [reflexivity |].
  apply (idset_frame_roundtrip 1800 true 5 77). reflexivity.
Defined.

(** ** Decoding into an existing object *)

(** X12: a decode that fails is not undone. A Bit Rate Set frame whose third
    byte the setter refuses leaves the object with the frame's [sendNode],
    [controlCode] and [destNode] and with [msgType] REQUEST, its [status] and
    [bitrate] as before; a frame of a wrong length leaves any variant's
    object with the frame's [sendNode], [controlCode] and [destNode] and all
    else as before. *)
Theorem failed_decode_keeps_assignments (a : Z) (x : bool) (d : Z) :
  (forall b s, 0 <= b <= 255 -> ~ 1 <= b <= 4 -> b <> 125 -> b <> 250 -> b <> 0xFF ->
     BitRateSet.setMessage (can.mkMessage a x [1; d; b] 3) s =
       (BitRateSet.mk (Some (PyInt (a - 1792))) (Some 1) (Some (PyInt d))
          (Some MSG_REQUEST) (BitRateSet.status s) (BitRateSet.bitrate s),
        Raise ValueError))
  /\ (forall rest n s, n <> 2 -> n <> 8 ->
        NodeIdentification.setMessage (can.mkMessage a x (0 :: d :: rest) n) s =
          (NodeIdentification.mk (Some (PyInt (a - 1792))) (Some 0) (Some (PyInt d))
             (NodeIdentification.msgType s) (NodeIdentification.device s)
             (NodeIdentification.fwrev s) (NodeIdentification.model s),
           Raise MsgSizeError))
  /\ (forall rest n s, n <> 2 -> n <> 3 ->
        BitRateSet.setMessage (can.mkMessage a x (1 :: d :: rest) n) s =
          (BitRateSet.mk (Some (PyInt (a - 1792))) (Some 1) (Some (PyInt d))
             (BitRateSet.msgType s) (BitRateSet.status s) (BitRateSet.bitrate s),
           Raise MsgSizeError))
  /\ (forall rest n s, n <> 3 ->
        NodeIDSet.setMessage (can.mkMessage a x (2 :: d :: rest) n) s =
          (NodeIDSet.mk (Some (PyInt (a - 1792))) (Some 2) (Some (PyInt d))
             (NodeIDSet.msgType s) (NodeIDSet.newnode s),
           Raise MsgSizeError)).
Proof.
  split; [| split; [| split]].
  - intros b s Hbyte Hb H125 H250 H255.
    unfold BitRateSet.setMessage. run_method. unfold py_index. simpl.
    destruct (Z.eqb_spec b 255); [lia |]. simpl.
    unfold BitRateSet.setBitRate. run_method.
    rewrite (dict_get_bitrates b) by lia.
    destruct (Z.geb_spec b 1); destruct (Z.leb_spec b 4); simpl; try lia;
      reflexivity.
  - intros rest n s H2 H8. unfold NodeIdentification.setMessage. run_method.
    rewrite ?py_index_0; simpl; rewrite ?py_index_1; simpl.
    destruct (Z.eqb_spec n 2); [contradiction |].
    destruct (Z.eqb_spec n 8); [contradiction |]. reflexivity.
  - intros rest n s H2 H3. unfold BitRateSet.setMessage. run_method.
    rewrite ?py_index_0; simpl; rewrite ?py_index_1; simpl.
    destruct (Z.eqb_spec n 2); [contradiction |].
    destruct (Z.eqb_spec n 3); [contradiction |]. reflexivity.
  - intros rest n s H3. unfold NodeIDSet.setMessage. run_method.
    rewrite ?py_index_0; simpl; rewrite ?py_index_1; simpl.
    destruct (Z.eqb_spec n 3); [contradiction |]. reflexivity.
Qed.

Lemma failed_decode_keeps_assignments_witness :
  (0 <= 5 <= 255 /\ ~ 1 <= 5 <= 4)
  /\ BitRateSet.setMessage frame_bitrate_5
       (BitRateSet.mk (Some (PyInt 9)) (Some 1) (Some (PyInt 8))
          (Some MSG_RESPONSE) (Some MSG_SUCCESS) None)
     = (BitRateSet.mk (Some (PyInt 1)) (Some 1) (Some (PyInt 5))
          (Some MSG_REQUEST) (Some MSG_SUCCESS) None,
        Raise ValueError).
Proof.
  split; [lia |].
  destruct (failed_decode_keeps_assignments 1793 false 5) as (Hbad & _).
  apply (Hbad 5); lia.
Defined.

(** X13: decoding into an object that was in the other role keeps that
    role's fields: a Node Identification request leaves [device], [fwrev]
    and [model] as they were, a Bit Rate Set response leaves [bitrate], a
    Bit Rate Set request leaves [status], a Node ID Set response leaves
    [newnode]. *)
Theorem decode_keeps_other_role_fields (a : Z) (x : bool) (d : Z) :
  (forall s,
      NodeIdentification.setMessage (can.mkMessage a x [0; d] 2) s =
        (NodeIdentification.mk (Some (PyInt (a - 1792))) (Some 0) (Some (PyInt d))
           (Some MSG_REQUEST) (NodeIdentification.device s)
           (NodeIdentification.fwrev s) (NodeIdentification.model s),
         Ok tt))
  /\ (forall s,
         BitRateSet.setMessage (can.mkMessage a x [1; d] 2) s =
           (BitRateSet.mk (Some (PyInt (a - 1792))) (Some 1) (Some (PyInt d))
              (Some MSG_RESPONSE) (Some MSG_SUCCESS) (BitRateSet.bitrate s),
            Ok tt))
  /\ (forall s b, 1 <= b <= 4 ->
         BitRateSet.setMessage (can.mkMessage a x [1; d; b] 3) s =
           (BitRateSet.mk (Some (PyInt (a - 1792))) (Some 1) (Some (PyInt d))
              (Some MSG_REQUEST) (BitRateSet.status s) (Some b),
            Ok tt))
  /\ (forall s,
         NodeIDSet.setMessage (can.mkMessage a x [2; d; 0] 3) s =
           (NodeIDSet.mk (Some (PyInt (a - 1792))) (Some 2) (Some (PyInt d))
              (Some MSG_RESPONSE) (NodeIDSet.newnode s),
            Ok tt)).
Proof.
  split; [| split; [| split]].
  - intros s. reflexivity.
  - intros s. reflexivity.
  - intros s b Hb. unfold BitRateSet.setMessage. run_method. unfold py_index. simpl.
    destruct (Z.eqb_spec b 255); [lia |]. simpl.
    unfold BitRateSet.setBitRate. run_method. settle_tests. reflexivity.
  - intros s. reflexivity.
Qed.

Lemma decode_keeps_other_role_fields_witness :
  1 <= 2 <= 4
  /\ BitRateSet.setMessage (can.mkMessage 1793 false [1; 5; 2] 3)
       (BitRateSet.mk (Some (PyInt 9)) (Some 1) (Some (PyInt 8))
          (Some MSG_RESPONSE) (Some MSG_FAIL) None)
     = (BitRateSet.mk (Some (PyInt 1)) (Some 1) (Some (PyInt 5))
          (Some MSG_REQUEST) (Some MSG_FAIL) (Some 2),
        Ok tt).
Proof.
  split; [lia |].
  destruct (decode_keeps_other_role_fields 1793 false 5) as (_ & _ & Hreq & _).
  apply (Hreq (BitRateSet.mk (Some (PyInt 9)) (Some 1) (Some (PyInt 8))
                 (Some MSG_RESPONSE) (Some MSG_FAIL) None) 2). lia.
Defined.

(** ** Setters: how calls compose *)

Lemma setBitRate_by_code (v code : Z) (s : BitRateSet.t) :
  bitrate_code v = Some code ->
  BitRateSet.setBitRate v s =
    (BitRateSet.set_msgType MSG_REQUEST (BitRateSet.set_bitrate code s), Ok tt).
Proof.
  unfold bitrate_code, BitRateSet.setBitRate. run_method.
  assert (Hsame : (v >=? 1) = (1 <=? v)).
  { destruct (Z.geb_spec v 1); destruct (Z.leb_spec 1 v); try lia; reflexivity. }
  rewrite Hsame.
  destruct ((1 <=? v) && (v <=? 4)); simpl.
  - intros Heq. inversion Heq. subst. reflexivity.
  - destruct (BitRateSet.dict_get BitRateSet.bitrates v) as [c |];
      intros Heq; inversion Heq; subst; reflexivity.
Qed.

Lemma bitrate_code_range (v code : Z) :
  bitrate_code v = Some code -> 1 <= code <= 4 /\ bitrate_code code = Some code.
Proof.
  unfold bitrate_code.
  destruct ((1 <=? v) && (v <=? 4)) eqn:Hv.
  - intros H. inversion H. subst. rewrite Hv. split; [lia | reflexivity].
  - intros H. apply dict_get_code in H.
    destruct (Z.leb_spec 1 code); destruct (Z.leb_spec code 4); simpl; try lia.
    split; [lia | reflexivity].
Qed.

(** X14: a bit rate given in kbps and the same bit rate given as its code
    leave the same object, whatever the object was, and therefore the same
    encoded payload: 125 and 1, 250 and 2, 500 and 3, 1000 and 4. *)
Theorem bitrate_synonyms_same_object (kbps code : Z) (s : BitRateSet.t) :
  In (kbps, code) BitRateSet.bitrates ->
  BitRateSet.setBitRate kbps s = BitRateSet.setBitRate code s
  /\ BitRateSet.getData (fst (BitRateSet.setBitRate kbps s))
     = BitRateSet.getData (fst (BitRateSet.setBitRate code s)).
Proof.
  intros Hin.
  assert (Heq : BitRateSet.setBitRate kbps s = BitRateSet.setBitRate code s).
  { simpl in Hin.
    destruct Hin as [H | [H | [H | [H | []]]]]; inversion H; subst; reflexivity. }
  split; [exact Heq | rewrite Heq; reflexivity].
Qed.

Lemma bitrate_synonyms_same_object_witness :
  In (500, 3) BitRateSet.bitrates
  /\ BitRateSet.setBitRate 500 bitrate_request_example
     = BitRateSet.setBitRate 3 bitrate_request_example.
Proof.
  split; [simpl; tauto |].
  apply (bitrate_synonyms_same_object 500 3 bitrate_request_example).
  simpl. tauto.
Defined.

(** X15: of two successful calls of the same setter the second one wins: the
    object is the one the second call alone would have left. *)
Theorem setter_last_call_wins (v w : Z) :
  (forall s : NodeIdentification.t,
      (0 <= v <= 255 -> 0 <= w <= 255 ->
       bind (NodeIdentification.setDevice v) (fun _ => NodeIdentification.setDevice w) s
       = NodeIdentification.setDevice w s)
      /\ (0 <= v <= 255 -> 0 <= w <= 255 ->
          bind (NodeIdentification.setFwrev v) (fun _ => NodeIdentification.setFwrev w) s
          = NodeIdentification.setFwrev w s)
      /\ (0 <= v <= 0xFFFFFF -> 0 <= w <= 0xFFFFFF ->
          bind (NodeIdentification.setModel v) (fun _ => NodeIdentification.setModel w) s
          = NodeIdentification.setModel w s))
  /\ (forall (s : BitRateSet.t) cv cw,
         bitrate_code v = Some cv -> bitrate_code w = Some cw ->
         bind (BitRateSet.setBitRate v) (fun _ => BitRateSet.setBitRate w) s
         = BitRateSet.setBitRate w s)
  /\ (forall s : NodeIDSet.t,
         1 <= v <= 255 -> 1 <= w <= 255 ->
         bind (NodeIDSet.setNewNode v) (fun _ => NodeIDSet.setNewNode w) s
         = NodeIDSet.setNewNode w s).
Proof.
  split; [| split].
  - intros s.
    unfold NodeIdentification.setDevice, NodeIdentification.setFwrev,
      NodeIdentification.setModel.
    repeat split; intros Hv Hw; run_method; settle_tests; reflexivity.
  - intros s cv cw Hv Hw. unfold bind.
    rewrite (setBitRate_by_code v cv s Hv).
    rewrite !(setBitRate_by_code w cw _ Hw). reflexivity.
  - intros s Hv Hw. unfold NodeIDSet.setNewNode. run_method. settle_tests.
    reflexivity.
Qed.

Lemma setter_last_call_wins_witness :
  bitrate_code 1000 = Some 4 /\ bitrate_code 2 = Some 2
  /\ bind (BitRateSet.setBitRate 1000) (fun _ => BitRateSet.setBitRate 2)
          BitRateSet.blank
     = BitRateSet.setBitRate 2 BitRateSet.blank.
Proof.
  split; [reflexivity |]. split; [reflexivity |].
  destruct (setter_last_call_wins 1000 2) as (_ & Hrate & _).
  apply (Hrate BitRateSet.blank 4 2); reflexivity.
Defined.

(** X16: the three Node Identification setters commute: two of them called
    with in-domain values leave the same object in either order. *)
Theorem ident_setters_commute (d f m : Z) (s : NodeIdentification.t) :
  0 <= d <= 255 -> 0 <= f <= 255 -> 0 <= m <= 0xFFFFFF ->
  bind (NodeIdentification.setDevice d) (fun _ => NodeIdentification.setFwrev f) s
  = bind (NodeIdentification.setFwrev f) (fun _ => NodeIdentification.setDevice d) s
  /\ bind (NodeIdentification.setDevice d) (fun _ => NodeIdentification.setModel m) s
     = bind (NodeIdentification.setModel m) (fun _ => NodeIdentification.setDevice d) s
  /\ bind (NodeIdentification.setFwrev f) (fun _ => NodeIdentification.setModel m) s
     = bind (NodeIdentification.setModel m) (fun _ => NodeIdentification.setFwrev f) s.
Proof.
  intros Hd Hf Hm.
  unfold NodeIdentification.setDevice, NodeIdentification.setFwrev,
    NodeIdentification.setModel.
  repeat split; run_method; settle_tests; reflexivity.
Qed.

Lemma ident_setters_commute_witness :
  0 <= 7 <= 255 /\ 0 <= 3 <= 255 /\ 0 <= 70000 <= 0xFFFFFF
  /\ bind (NodeIdentification.setDevice 7) (fun _ => NodeIdentification.setModel 70000)
          NodeIdentification.blank
     = bind (NodeIdentification.setModel 70000) (fun _ => NodeIdentification.setDevice 7)
            NodeIdentification.blank.
Proof.
  split; [lia |]. split; [lia |]. split; [lia |].
  destruct (ident_setters_commute 7 3 70000 NodeIdentification.blank) as (_ & H & _);
    try lia.
  exact H.
Defined.

(** ** Constructors *)

(** X17: a constructor called without a frame returns an object if and only
    if every field argument given is in its domain, and raises [ValueError]
    otherwise. The object has the variant's control code, [None] for both
    addresses and the arguments as fields ([bitrate] as its code); giving
    any argument switches the role away from the default: Node
    Identification is a request unless a field is given, Bit Rate Set and
    Node ID Set are responses unless the field is given. *)
Theorem constructor_without_frame :
  (forall device fwrev model,
      (opt_in_range 0 255 device && opt_in_range 0 255 fwrev
       && opt_in_range 0 0xFFFFFF model = true ->
       NodeIdentification.new None device fwrev model =
         Ok (NodeIdentification.mk (Some PyNone) (Some 0) (Some PyNone)
               (Some (if is_given device || is_given fwrev || is_given model
                      then MSG_RESPONSE else MSG_REQUEST))
               device fwrev model))
      /\ (opt_in_range 0 255 device && opt_in_range 0 255 fwrev
          && opt_in_range 0 0xFFFFFF model = false ->
          NodeIdentification.new None device fwrev model = Raise ValueError))
  /\ BitRateSet.new None None =
       Ok (BitRateSet.mk (Some PyNone) (Some 1) (Some PyNone)
             (Some MSG_RESPONSE) (Some MSG_SUCCESS) None)
  /\ (forall v,
         (forall code, bitrate_code v = Some code ->
            BitRateSet.new None (Some v) =
              Ok (BitRateSet.mk (Some PyNone) (Some 1) (Some PyNone)
                    (Some MSG_REQUEST) (Some MSG_SUCCESS) (Some code)))
         /\ (bitrate_code v = None -> BitRateSet.new None (Some v) = Raise ValueError))
  /\ NodeIDSet.new None None =
       Ok (NodeIDSet.mk (Some PyNone) (Some 2) (Some PyNone) (Some MSG_RESPONSE) None)
  /\ (forall v,
         (1 <= v <= 255 ->
          NodeIDSet.new None (Some v) =
            Ok (NodeIDSet.mk (Some PyNone) (Some 2) (Some PyNone)
                  (Some MSG_REQUEST) (Some v)))
         /\ (~ 1 <= v <= 255 -> NodeIDSet.new None (Some v) = Raise ValueError)).
Proof.
  split; [| split; [reflexivity | split; [| split; [reflexivity |]]]].
  - intros device fwrev model.
    unfold NodeIdentification.new, NodeIdentification.__init__,
      NodeIdentification.opt_set, NodeIdentification.setDevice,
      NodeIdentification.setFwrev, NodeIdentification.setModel,
      opt_in_range, is_given.
    split; intros Hdom.
    + destruct device as [d |], fwrev as [f |], model as [m |]; simpl in Hdom;
        repeat match goal with
               | H : _ && _ = true |- _ => apply andb_prop in H; destruct H
               end;
        run_method; settle_tests; reflexivity.
    + destruct device as [d |], fwrev as [f |], model as [m |]; simpl in Hdom;
        try discriminate Hdom; run_method; settle_tests; simpl;
        try reflexivity;
        exfalso;
        repeat match goal with
               | H : _ && _ = false |- _ => apply andb_false_iff in H; destruct H
               end; lia.
  - intros v. unfold BitRateSet.new, BitRateSet.__init__. split.
    + intros code Hcode. unfold bind, assign. simpl.
      rewrite (setBitRate_by_code v code _ Hcode). reflexivity.
    + unfold bitrate_code. intros Hnone. unfold bind, assign. simpl.
      unfold BitRateSet.setBitRate. run_method.
      assert (Hsame : (v >=? 1) = (1 <=? v)).
      { destruct (Z.geb_spec v 1); destruct (Z.leb_spec 1 v); try lia; reflexivity. }
      rewrite Hsame.
      destruct ((1 <=? v) && (v <=? 4)); [discriminate Hnone |].
      rewrite Hnone. reflexivity.
  - intros v. unfold NodeIDSet.new, NodeIDSet.__init__, NodeIDSet.setNewNode.
    split; intros Hv; run_method; settle_tests; reflexivity.
Qed.

Lemma constructor_without_frame_witness :
  (opt_in_range 0 255 (Some 7) && opt_in_range 0 255 None
   && opt_in_range 0 0xFFFFFF None = true
   /\ NodeIdentification.new None (Some 7) None None =
        Ok (NodeIdentification.mk (Some PyNone) (Some 0) (Some PyNone)
              (Some MSG_RESPONSE) (Some 7) None None))
  /\ (bitrate_code 5 = None /\ BitRateSet.new None (Some 5) = Raise ValueError)
  /\ (1 <= 9 <= 255
      /\ NodeIDSet.new None (Some 9) =
           Ok (NodeIDSet.mk (Some PyNone) (Some 2) (Some PyNone)
                 (Some MSG_REQUEST) (Some 9))).
Proof.
  destruct constructor_without_frame as (Hident & _ & Hrate & _ & Hidset).
  split; [| split]; (split; [first [reflexivity | lia] |]).
  - destruct (Hident (Some 7) None None) as (Hok & _). apply Hok. reflexivity.
  - destruct (Hrate 5) as (_ & Hbad). apply Hbad. reflexivity.
  - destruct (Hidset 9) as (Hok & _). apply Hok. lia.
Defined.

(** Case analysis on the tests of a constructor's setters. *)
Ltac split_tests :=
  repeat (match goal with
          | |- context [if ?b then _ else _] =>
              lazymatch type of b with
              | bool => destruct b eqn:?
              end
          | |- context [match BitRateSet.dict_get ?d ?k with _ => _ end] =>
              destruct (BitRateSet.dict_get d k) eqn:?
          end; run_method).

(** X18: an object a constructor made without a frame cannot be encoded as
    it is: both addresses are [None], and [getData] and [getMessage] raise
    [TypeError] whatever field arguments were given. *)
Theorem constructed_object_not_encodable :
  (forall device fwrev model e,
      NodeIdentification.new None device fwrev model = Ok e ->
      NodeIdentification.getData e = Raise TypeError
      /\ NodeIdentification.getMessage e = Raise TypeError)
  /\ (forall bitrate e,
         BitRateSet.new None bitrate = Ok e ->
         BitRateSet.getData e = Raise TypeError
         /\ BitRateSet.getMessage e = Raise TypeError)
  /\ (forall newnode e,
         NodeIDSet.new None newnode = Ok e ->
         NodeIDSet.getData e = Raise TypeError
         /\ NodeIDSet.getMessage e = Raise TypeError).
Proof.
  split; [| split].
  - intros device fwrev model e.
    unfold NodeIdentification.new, NodeIdentification.__init__,
      NodeIdentification.opt_set, NodeIdentification.setDevice,
      NodeIdentification.setFwrev, NodeIdentification.setModel.
    destruct device, fwrev, model; run_method; split_tests;
      intros He; inversion He; subst; split; reflexivity.
  - intros bitrate e.
    unfold BitRateSet.new, BitRateSet.__init__, BitRateSet.setBitRate.
    destruct bitrate; run_method; split_tests;
      intros He; inversion He; subst; split; reflexivity.
  - intros newnode e.
    unfold NodeIDSet.new, NodeIDSet.__init__, NodeIDSet.setNewNode.
    destruct newnode; run_method; split_tests;
      intros He; inversion He; subst; split; reflexivity.
Qed.

Lemma constructed_object_not_encodable_witness :
  BitRateSet.new None (Some 500) =
    Ok (BitRateSet.mk (Some PyNone) (Some 1) (Some PyNone)
          (Some MSG_REQUEST) (Some MSG_SUCCESS) (Some 3))
  /\ BitRateSet.getMessage
       (BitRateSet.mk (Some PyNone) (Some 1) (Some PyNone)
          (Some MSG_REQUEST) (Some MSG_SUCCESS) (Some 3))
     = Raise TypeError.
Proof.
  split; [reflexivity |].
  destruct constructed_object_not_encodable as (_ & Hrate & _).
  destruct (Hrate (Some 500) _ eq_refl) as (_ & Hmsg). exact Hmsg.
Defined.

(** ** Encoding a response that is not complete *)

Lemma append_int_byte (l : list Z) (z : Z) :
  0 <= z <= 255 -> bytearray_append_int l z = Ok (l ++ [z]).
Proof.
  intros Hz. unfold bytearray_append_int.
  destruct (Z.leb_spec 0 z); [| lia]. destruct (Z.ltb_spec z 256); [| lia].
  reflexivity.
Qed.

(** X19: a Node Identification response that lacks one of [device], [fwrev]
    and [model] cannot be encoded: with the control code and [destNode] in
    place and the fields present in their domains, [getData] raises
    [AttributeError]. Setting one field switches the role to response but
    does not make the object a complete one. *)
Theorem incomplete_response_not_encodable (e : NodeIdentification.t) (c d : Z) :
  NodeIdentification.controlCode e = Some c -> 0 <= c <= 255 ->
  NodeIdentification.destNode e = Some (PyInt d) -> 0 <= d <= 255 ->
  NodeIdentification.msgType e = Some MSG_RESPONSE ->
  opt_in_range 0 255 (NodeIdentification.device e) = true ->
  opt_in_range 0 255 (NodeIdentification.fwrev e) = true ->
  NodeIdentification.device e = None \/ NodeIdentification.fwrev e = None
  \/ NodeIdentification.model e = None ->
  NodeIdentification.getData e = Raise AttributeError.
Proof.
  intros Hc Hcr Hd Hdr Hmt Hdev Hfw Hmissing.
  unfold NodeIdentification.getData.
  rewrite Hc, Hd, Hmt. cbn [attr rbind bytearray_append MsgType_eqb].
  rewrite (append_int_byte [] c Hcr). cbn [rbind].
  rewrite (append_int_byte _ d Hdr). cbn [rbind].
  rewrite (append_int_byte _ 1) by lia. cbn [rbind].
  destruct (NodeIdentification.device e) as [dv |]; [| reflexivity].
  cbn [attr rbind]. cbn [opt_in_range] in Hdev.
  rewrite (append_int_byte _ dv) by lia. cbn [rbind].
  destruct (NodeIdentification.fwrev e) as [f |]; [| reflexivity].
  cbn [attr rbind]. cbn [opt_in_range] in Hfw.
  rewrite (append_int_byte _ f) by lia. cbn [rbind].
  destruct (NodeIdentification.model e) as [m |]; [| reflexivity].
  destruct Hmissing as [Hnone | [Hnone | Hnone]]; discriminate Hnone.
Qed.

Lemma incomplete_response_not_encodable_witness :
  0 <= 0 <= 255 /\ 0 <= 5 <= 255
  /\ NodeIdentification.getData
       (NodeIdentification.mk (Some (PyInt 1)) (Some 0) (Some (PyInt 5))
          (Some MSG_RESPONSE) (Some 7) None None)
     = Raise AttributeError.
Proof.
  split; [lia |]. split; [lia |].
  apply (incomplete_response_not_encodable _ 0 5); try reflexivity; try lia.
  right. left. reflexivity.
Defined.

(** ** Formatting after a setter *)

Lemma find_kbps_of_code (kbps code : Z) :
  In (kbps, code) BitRateSet.bitrates ->
  BitRateSet.find_kbps BitRateSet.bitrates code = Some kbps.
Proof.
  simpl. intros [H | [H | [H | [H | []]]]]; inversion H; subst; reflexivity.
Qed.

Arguments BitRateSet.find_kbps : simpl never.

(** X20: after the bit rate is set, by its kbps value or by its code, on an
    object with its control code and both addresses in place, [__str__]
    returns and shows the request with the kbps value of the table:
    "[<sendNode>]->[<destNode>] Bit Rate Set: request bitrate=<kbps>kbps". *)
Theorem bitrate_str_after_set (s : BitRateSet.t) (sn dn : pyval) (kbps code v : Z) :
  BitRateSet.sendNode s = Some sn ->
  BitRateSet.destNode s = Some dn ->
  BitRateSet.controlCode s = Some 1 ->
  In (kbps, code) BitRateSet.bitrates ->
  v = kbps \/ v = code ->
  exists s',
    BitRateSet.setBitRate v s = (s', Ok tt)
    /\ BitRateSet.__str__ s' =
         Ok ("[" ++ py_str sn ++ "]" ++ "->[" ++ py_str dn ++ "] "
             ++ "Bit Rate Set" ++ ": request bitrate=" ++ str_int kbps ++ "kbps")%string.
Proof.
  intros Hsn Hdn Hcc Hin Hv.
  assert (Hcode : bitrate_code v = Some code).
  { simpl in Hin.
    destruct Hin as [H | [H | [H | [H | []]]]]; inversion H; subst;
      destruct Hv as [-> | ->]; reflexivity. }
  eexists. split; [apply (setBitRate_by_code v code s Hcode) |].
  destruct s as [sn' cc dn' mt st br]. simpl in *. subst.
  unfold BitRateSet.__str__. run_method. unfold py_index. simpl.
  rewrite (find_kbps_of_code kbps code Hin).
  f_equal. rewrite !append_assoc. simpl. rewrite ?append_assoc. reflexivity.
Qed.

Lemma bitrate_str_after_set_witness :
  In (250, 2) BitRateSet.bitrates
  /\ exists s',
       BitRateSet.setBitRate 2
         (BitRateSet.mk (Some (PyInt 1)) (Some 1) (Some (PyInt 5))
            (Some MSG_RESPONSE) (Some MSG_SUCCESS) None) = (s', Ok tt)
       /\ BitRateSet.__str__ s' =
            Ok "[1]->[5] Bit Rate Set: request bitrate=250kbps"%string.
Proof.
  split; [simpl; tauto |].
  apply (bitrate_str_after_set
           (BitRateSet.mk (Some (PyInt 1)) (Some 1) (Some (PyInt 5))
              (Some MSG_RESPONSE) (Some MSG_SUCCESS) None)
           (PyInt 1) (PyInt 5) 250 2 2); try reflexivity.
  - simpl. tauto.
  - right. reflexivity.
Defined.
